(** * autowheel: reconciliation of published wheels against a version map

    A shallow embedding of [autowheel/autowheel.py] (functions [process] and
    [main]) together with the parts of the Python runtime the code relies on:
    [distutils.version.LooseVersion], the builtins [min], [max], [sorted],
    substring membership and [os.environ].

    Conventions.
    - Python [str] is modelled by [string] (a sequence of bytes); [\d] is the
      ASCII digit class and string comparison is the byte-wise lexicographic
      order, which is the code point order on ASCII text.
    - Exceptions are values of [exn]; a computation that can raise returns a
      [result].  Comparison of an [int] component with a [str] component
      raises [TypeError], as it does under Python 3.
    - [print] calls only write to standard output and are left out; the
      expressions they evaluate are kept where they can raise. *)

From stdpp Require Import base decidable option list sorting gmap strings.
From Stdlib Require Import ZArith Ascii String Lia.

Local Open Scope string_scope.
Local Open Scope Z_scope.

(** ** Python runtime *)

Module Py.

(** The value carried by [SystemExit.code]. *)
Inductive exit_code : Type :=
  | CodeNone
  | CodeInt (n : Z)
  | CodeStr (s : string).

Inductive exn : Type :=
  | TypeError
  | ValueError
  | IndexError
  | KeyError
  | SystemExit (code : exit_code)
  | OtherError (name : string).

Inductive result (A : Type) : Type :=
  | Ok (a : A)
  | Raise (e : exn).
Global Arguments Ok {A} a.
Global Arguments Raise {A} e.

Global Instance exit_code_eq_dec : EqDecision exit_code.
Proof. solve_decision. Defined.
Global Instance exn_eq_dec : EqDecision exn.
Proof. solve_decision. Defined.

Global Instance result_ret : MRet result := @Ok.
Global Instance result_bind : MBind result := fun A B f r =>
  match r with
  | Ok a => f a
  | Raise e => Raise e
  end.

Global Instance result_fmap : FMap result := fun A B f r =>
  match r with
  | Ok a => Ok (f a)
  | Raise e => Raise e
  end.

Definition is_Ok {A} (r : result A) : bool :=
  match r with Ok _ => true | Raise _ => false end.

(** [exc.code != 0] *)
Definition code_ne_0 (c : exit_code) : bool :=
  match c with
  | CodeInt 0 => false
  | _ => true
  end.

(** [a in b] on strings: [a] occurs in [b] as a contiguous substring. *)
Fixpoint contains (a b : string) : bool :=
  String.prefix a b ||
  match b with
  | EmptyString => false
  | String _ b' => contains a b'
  end.

(** [key.startswith(p)] *)
Definition startswith (p key : string) : bool := String.prefix p key.

Definition is_digit (c : ascii) : bool :=
  let n := N_of_ascii c in ((48 <=? n) && (n <=? 57))%N.

Definition is_lower (c : ascii) : bool :=
  let n := N_of_ascii c in ((97 <=? n) && (n <=? 122))%N.

Fixpoint all_digits (s : string) : bool :=
  match s with
  | EmptyString => true
  | String c s' => is_digit c && all_digits s'
  end.

Fixpoint digits_value (acc : Z) (s : string) : Z :=
  match s with
  | EmptyString => acc
  | String c s' => digits_value (10 * acc + (Z.of_N (N_of_ascii c) - 48)) s'
  end.

(** [int(obj)] on the chunks the version parser produces: a non-empty run of
    decimal digits converts, everything else is a [ValueError]. *)
Definition int (obj : string) : result Z :=
  match obj with
  | EmptyString => Raise ValueError
  | _ => if all_digits obj then Ok (digits_value 0 obj) else Raise ValueError
  end.

(** [bool(x)] for an optional string: [None] and [''] are false. *)
Definition truthy (x : option string) : bool :=
  match x with
  | None => false
  | Some EmptyString => false
  | Some _ => true
  end.

(** [str(x)] for an optional string. *)
Definition str (x : option string) : string :=
  match x with
  | None => "None"
  | Some s => s
  end.

(** [min] and [max] over a list with a fallible comparison: the running
    extremum is replaced when [better item current] holds, so among equal
    elements the first one is kept; an empty argument is a [ValueError]. *)
Fixpoint extremum_from {A} (better : A → A → result bool) (cur : A)
    (l : list A) : result A :=
  match l with
  | [] => Ok cur
  | x :: l' =>
      b ← better x cur;
      extremum_from better (if b : bool then x else cur) l'
  end.

Definition extremum {A} (better : A → A → result bool) (l : list A)
    : result A :=
  match l with
  | [] => Raise ValueError
  | x :: l' => extremum_from better x l'
  end.

(** A list comprehension [[x for x in l if p(x)]] whose condition can raise. *)
Fixpoint comprehension {A} (p : A → result bool) (l : list A)
    : result (list A) :=
  match l with
  | [] => Ok []
  | x :: l' =>
      b ← p x;
      r ← comprehension p l';
      Ok (if b : bool then x :: r else r)
  end.

(** [sorted(set(a) - set(b))] on strings. *)
Definition sorted_difference (a b : list string) : list string :=
  merge_sort String.le
    (elements ((list_to_set a : gset string) ∖ list_to_set b)).

End Py.

Export Py.

(** ** distutils.version.LooseVersion *)

Module LooseVersion.

Inductive component : Type :=
  | VInt (n : Z)
  | VStr (s : string).

Global Instance component_eq_dec : EqDecision component.
Proof. solve_decision. Defined.

Record t : Type := LooseVersion_ { vstring : string; version : list component }.

(** The three alternatives of [component_re = (\d+ | [a-z]+ | \.)]; text that
    matches none of them is what [split] returns between two matches. *)
Inductive char_class : Type := Digit | Lower | Dot | Other.

Global Instance char_class_eq_dec : EqDecision char_class.
Proof. solve_decision. Defined.

Definition classify (c : ascii) : char_class :=
  if is_digit c then Digit
  else if is_lower c then Lower
  else if Ascii.eqb c "."%char then Dot
  else Other.

(** [component_re.split(vstring)] without the empty strings it yields
    between adjacent matches: maximal runs of digits, of lower-case letters
    and of unmatched text, and every single dot. [cur] is the run being
    read, [cls] its class. *)
Fixpoint split_runs (cls : char_class) (cur : string) (s : string)
    : list string :=
  match s with
  | EmptyString => [cur]
  | String c s' =>
      let k := classify c in
      if bool_decide (k = cls) && negb (bool_decide (k = Dot))
      then split_runs cls (cur +:+ String c EmptyString) s'
      else cur :: split_runs k (String c EmptyString) s'
  end.

Definition component_re_split (vstring : string) : list string :=
  match vstring with
  | EmptyString => []
  | String c s' => split_runs (classify c) (String c EmptyString) s'
  end.

(** [parse]: drop the dots, turn the digit runs into integers. *)
Definition parse (vstring : string) : list component :=
  let components :=
    filter (fun x => x ≠ "" ∧ x ≠ ".") (component_re_split vstring) in
  (fun obj => match int obj with
              | Ok n => VInt n
              | Raise _ => VStr obj
              end) <$> components.

Definition LooseVersion (vstring : string) : t :=
  {| vstring := vstring; version := parse vstring |}.

(** [x < y] on components. *)
Definition component_lt (x y : component) : result bool :=
  match x, y with
  | VInt a, VInt b => Ok (a <? b)
  | VStr a, VStr b => Ok (String.ltb a b)
  | _, _ => Raise TypeError
  end.

(** [a < b] on lists: the first position where the two differ decides. *)
Fixpoint list_lt (a b : list component) : result bool :=
  match a, b with
  | x :: a', y :: b' =>
      if decide (x = y) then list_lt a' b' else component_lt x y
  | [], _ :: _ => Ok true
  | _, [] => Ok false
  end.

(** [a > b] on lists. *)
Definition list_gt (a b : list component) : result bool := list_lt b a.

(** [_cmp]: [0], [-1] or [1]. Falling off the end would return [None], on
    which the caller's comparison with [0] raises [TypeError]. *)
Definition cmp (self other : t) : result Z :=
  if decide (version self = version other) then Ok 0
  else
    l ← list_lt (version self) (version other);
    if l : bool then Ok (-1)
    else
      g ← list_gt (version self) (version other);
      if g : bool then Ok 1 else Raise TypeError.

(** [__lt__], [__le__], [__gt__] *)
Definition lt (self other : t) : result bool :=
  c ← cmp self other; Ok (c <? 0).
Definition le (self other : t) : result bool :=
  c ← cmp self other; Ok (c <=? 0).
Definition gt (self other : t) : result bool :=
  c ← cmp self other; Ok (c >? 0).

End LooseVersion.

Export LooseVersion(LooseVersion, vstring, version, VInt, VStr).

(** ** The process: working directory, environment, outside world *)

Module Os.

(** A path argument is either absolute ([tempfile.mkdtemp()] and
    [os.path.abspath] return such paths) or a name relative to the working
    directory (an entry of [os.listdir('.')]). *)
Inductive path : Type :=
  | Abs (s : string)
  | Rel (s : string).

Definition resolve (cwd : string) (p : path) : string :=
  match p with
  | Abs s => s
  | Rel s => if decide (s = ".") then cwd else cwd +:+ "/" +:+ s
  end.

(** What a called function can see and change: the working directory (an
    absolute path), [os.environ], [sys.argv], and everything outside the
    interpreter (file system, network, package index), of type [E]. *)
Record state (E : Type) : Type := State {
  cwd : string;
  environ : gmap string string;
  argv : list string;
  outside : E
}.
Global Arguments State {E} _ _ _ _.
Global Arguments cwd {E} _.
Global Arguments environ {E} _.
Global Arguments argv {E} _.
Global Arguments outside {E} _.

(** The state of a run, with the record of the builder invocations made so
    far: each entry is the state the builder was entered with. *)
Record world (E : Type) : Type := World {
  proc : state E;
  builds : list (state E)
}.
Global Arguments World {E} _ _.
Global Arguments proc {E} _.
Global Arguments builds {E} _.

(** An external collaborator: runs on the process state, may raise. *)
Definition action (E A : Type) : Type := state E → state E * result A.

(** Code of the program: state passing with exceptions. *)
Definition M (E A : Type) : Type := world E → world E * result A.

Global Instance M_ret {E} : MRet (M E) := fun A a w => (w, Ok a).
Global Instance M_bind {E} : MBind (M E) := fun A B f m w =>
  match m w with
  | (w', Ok a) => f a w'
  | (w', Raise e) => (w', Raise e)
  end.

Section Primitives.
Context {E : Type}.

Definition raise {A} (e : exn) : M E A := fun w => (w, Raise e).

(** Lift a pure fallible computation. *)
Definition lift {A} (r : result A) : M E A := fun w => (w, r).

(** Call an external collaborator. *)
Definition call {A} (f : action E A) : M E A := fun w =>
  let '(s, r) := f (proc w) in (World s (builds w), r).

Definition getcwd : M E string := fun w => (w, Ok (cwd (proc w))).

(** [os.path.abspath(p)] *)
Definition abspath (p : path) : M E string := fun w =>
  (w, Ok (resolve (cwd (proc w)) p)).

(** [os.chdir(p)]; the directory is taken to exist. *)
Definition chdir (p : path) : M E unit := fun w =>
  let s := proc w in
  (World (State (resolve (cwd s) p) (environ s) (argv s) (outside s))
         (builds w), Ok tt).

(** [os.environ[k] = v] *)
Definition setenv (k v : string) : M E unit := fun w =>
  let s := proc w in
  (World (State (cwd s) (<[k := v]> (environ s)) (argv s) (outside s))
         (builds w), Ok tt).

(** [sys.argv = a] *)
Definition set_argv (a : list string) : M E unit := fun w =>
  let s := proc w in
  (World (State (cwd s) (environ s) a (outside s)) (builds w), Ok tt).

(** [try: body finally: final] *)
Definition try_finally {A} (body : M E A) (final : M E unit) : M E A :=
  fun w =>
    let '(w1, r) := body w in
    match final w1 with
    | (w2, Ok _) => (w2, r)
    | (w2, Raise e) => (w2, Raise e)
    end.

(** [try: body except SystemExit as exc: handler(exc.code)] *)
Definition except_SystemExit (body : M E unit)
    (handler : exit_code → M E unit) : M E unit :=
  fun w =>
    match body w with
    | (w1, Raise (SystemExit c)) => handler c w1
    | other => other
    end.

(** [for x in l: body(x)]; [continue] is an early return of the body. *)
Fixpoint for_each {A} (l : list A) (body : A → M E unit) : M E unit :=
  match l with
  | [] => mret tt
  | x :: l' => body x ≫= fun _ => for_each l' body
  end.

End Primitives.

End Os.

Export Os.

(** ** autowheel.py *)

Module Autowheel.

(** One file record of a release in the index's JSON answer. *)
Record fileinfo : Type := FileInfo {
  packagetype : string;
  filename : string;
  url : string
}.

(** One entry of [autowheel.yml]. [before_build] and [pin_numpy] are read
    with [package.get]; the optional strings are [None] when the value is
    null or, for [before_build], when the key is absent. *)
Record package : Type := Package {
  package_name : string;
  python_versions : list (string * list string);
  before_build : option string;
  pin_numpy : bool;
  test_command : option string;
  test_requires : option string
}.

(** The collaborators of [process] and [main]. The three tables come from
    the modules [autowheel.config] and [autowheel.numpy]; the other fields
    are the index, the network, the file system and the builder. *)
Record externals (E : Type) : Type := Externals {
  PYTHON_TAGS : list string;
  PLATFORM_TAGS : gmap string string;
  MIN_NUMPY : gmap (string * string) string;
  (** [requests.get('https://pypi.org/pypi/{package_name}/json').json()
      ['releases']], in the order the dictionary enumerates its releases *)
  pypi_releases : string → action E (list (string * list fileinfo));
  (** [requests.get(url).content] *)
  requests_get : string → action E string;
  (** [tempfile.mkdtemp()] *)
  mkdtemp : action E string;
  (** [with open(name, 'wb') as f: f.write(content)] *)
  write_file : string → string → action E unit;
  (** [tarfile.open(name, 'r:gz').extractall(path='.')] *)
  extractall : string → action E unit;
  (** [os.listdir('.')] *)
  listdir : action E (list string);
  (** [cibuildwheel()] *)
  cibuildwheel : action E unit;
  (** [load(open('autowheel.yml'))] *)
  load_packages : action E (list package)
}.
Global Arguments PYTHON_TAGS {E} _.
Global Arguments PLATFORM_TAGS {E} _.
Global Arguments MIN_NUMPY {E} _.
Global Arguments pypi_releases {E} _ _.
Global Arguments requests_get {E} _ _.
Global Arguments mkdtemp {E} _.
Global Arguments write_file {E} _ _ _.
Global Arguments extractall {E} _ _.
Global Arguments listdir {E} _.
Global Arguments cibuildwheel {E} _.
Global Arguments load_packages {E} _.

(** [d[k]] on a dictionary kept as an association list in insertion order. *)
Fixpoint getitem {V} (d : list (string * V)) (k : string) : result V :=
  match d with
  | [] => Raise KeyError
  | (k', v) :: d' => if decide (k' = k) then Ok v else getitem d' k
  end.

(** [l.remove(x)]: drops the first occurrence, [ValueError] without one. *)
Fixpoint list_remove (x : string) (l : list string) : result (list string) :=
  match l with
  | [] => Raise ValueError
  | y :: l' => if decide (y = x) then Ok l' else cons y <$> list_remove x l'
  end.

Section Process.
Context {E : Type} (ext : externals E).

(** *** The version map (lines 33-59) *)

(** [package_versions], line 33 *)
Definition package_versions (python_versions : list (string * list string))
    : list LooseVersion.t :=
  (fun kv => LooseVersion (fst kv)) <$> python_versions.

(** [min_package_version], line 34 *)
Definition min_package_version
    (python_versions : list (string * list string)) : result LooseVersion.t :=
  extremum LooseVersion.lt (package_versions python_versions).

(** [matching_version], line 56 *)
Definition matching_version (python_versions : list (string * list string))
    (release_version : string) : result LooseVersion.t :=
  candidates ← comprehension
    (fun package_version =>
       LooseVersion.le package_version (LooseVersion release_version))
    (package_versions python_versions);
  extremum LooseVersion.gt candidates.

(** Lines 50-59 for one release: [None] when the release is skipped as
    older than the smallest key, else [required_pythons]. *)
Definition required_pythons (python_versions : list (string * list string))
    (min_package_version : LooseVersion.t) (release_version : string)
    : result (option (list string)) :=
  below ← LooseVersion.lt (LooseVersion release_version) min_package_version;
  if below : bool then Ok None
  else
    m ← matching_version python_versions release_version;
    r ← getitem python_versions (vstring m);
    Ok (Some r).

(** *** Published wheels and the source distribution (lines 66-80) *)

(** One turn of the loop of line 70 on the pair
    [(wheels_pythons, sdist)]. *)
Definition scan_file (platform_tag : string)
    (acc : list string * option fileinfo) (fi : fileinfo)
    : list string * option fileinfo :=
  let '(wheels_pythons, sdist) := acc in
  if decide (packagetype fi = "bdist_wheel") then
    if contains platform_tag (filename fi) then
      ((wheels_pythons ++
          filter (fun python_tag => contains python_tag (filename fi))
                 (PYTHON_TAGS ext))%list,
       sdist)
    else (wheels_pythons, sdist)
  else if decide (packagetype fi = "sdist") then (wheels_pythons, Some fi)
  else (wheels_pythons, sdist).

Definition scan_files (platform_tag : string) (files : list fileinfo)
    : list string * option fileinfo :=
  foldl (scan_file platform_tag) ([], None) files.

Definition wheels_pythons (platform_tag : string) (files : list fileinfo)
    : list string := fst (scan_files platform_tag files).

Definition sdist (platform_tag : string) (files : list fileinfo)
    : option fileinfo := snd (scan_files platform_tag files).

(** [missing], line 80 *)
Definition missing (platform_tag : string) (required : list string)
    (files : list fileinfo) : list string :=
  sorted_difference required (wheels_pythons platform_tag files).

(** [sdist[field]]: subscripting [None] is a [TypeError]. *)
Definition sdist_field (sd : option fileinfo) (field : fileinfo → string)
    : M E string :=
  match sd with
  | Some fi => mret (field fi)
  | None => raise TypeError
  end.

(** *** The build (lines 88-152) *)

Section Build.
Variables (platform_tag : string) (before_build : option string)
  (output_dir : string) (test_command test_requires : option string)
  (pin_numpy : bool).

(** Lines 115-128: the keys written once per release. *)
Definition configure_release : M E unit :=
  (if contains "mac" platform_tag then setenv "CIBW_PLATFORM" "macos"
   else if contains "linux" platform_tag then setenv "CIBW_PLATFORM" "linux"
   else setenv "CIBW_PLATFORM" "windows") ;;
  setenv "CIBW_OUTPUT_DIR" output_dir ;;
  (if truthy test_command
   then setenv "CIBW_TEST_COMMAND" (str test_command) else mret tt) ;;
  (if truthy test_requires
   then setenv "CIBW_TEST_REQUIRES" (str test_requires) else mret tt) ;;
  setenv "CIBW_BUILD_VERBOSITY" "3".

(** Lines 132-138: the keys written once per target. *)
Definition configure_target (python_tag : string) : M E unit :=
  setenv "CIBW_BUILD" (python_tag +:+ "-" +:+ platform_tag) ;;
  if pin_numpy then
    pinned_version ← lift (match MIN_NUMPY ext !! (python_tag, platform_tag) with
                           | Some v => Ok v
                           | None => Raise KeyError
                           end);
    setenv "CIBW_BEFORE_BUILD" ("pip install numpy==" +:+ pinned_version)
  else if truthy before_build then
    setenv "CIBW_BEFORE_BUILD" (str before_build)
  else mret tt.

(** Line 145, with the invocation recorded. *)
Definition run_cibuildwheel : M E unit := fun w =>
  let '(s, r) := cibuildwheel ext (proc w) in
  (World s (builds w ++ [proc w])%list, r).

(** Lines 144-148 *)
Definition build_target : M E unit :=
  except_SystemExit run_cibuildwheel
    (fun code => if code_ne_0 code then raise (SystemExit code) else mret tt).

(** Lines 130-148 *)
Definition build_missing (missing : list string) : M E unit :=
  for_each missing (fun python_tag =>
    configure_target python_tag ;; build_target).

(** Lines 91-148: the body of the [try]. *)
Definition build_body (tmpdir : string) (sd : option fileinfo)
    (missing : list string) : M E unit :=
  chdir (Abs tmpdir) ;;
  u ← sdist_field sd url;
  content ← call (requests_get ext u);
  name ← sdist_field sd filename;
  call (write_file ext name content) ;;
  call (extractall ext name) ;;
  listed ← call (listdir ext);
  paths ← lift (list_remove name listed);
  (if bool_decide (1 < List.length paths)%nat
   then raise ValueError else mret tt) ;;
  p0 ← lift (match paths with p :: _ => Ok p | [] => Raise IndexError end);
  chdir (Rel p0) ;;
  set_argv ["cibuildwheel"; "."] ;;
  configure_release ;;
  build_missing missing.

(** Lines 88-152 *)
Definition build_release (start_dir : string) (sd : option fileinfo)
    (missing : list string) : M E unit :=
  tmpdir ← call (mkdtemp ext);
  try_finally (build_body tmpdir sd missing) (chdir (Abs start_dir)).

(** Lines 48-152: the body of the loop over the releases. *)
Definition process_release (python_versions : list (string * list string))
    (ignore_existing : bool) (min_version : LooseVersion.t)
    (start_dir : string) (release : string * list fileinfo) : M E unit :=
  let '(release_version, files) := release in
  required ← lift (required_pythons python_versions min_version
                                    release_version);
  match required with
  | None => mret tt
  | Some required =>
      let missing := missing platform_tag required files in
      if bool_decide (missing = []) && negb ignore_existing then mret tt
      else build_release start_dir (sdist platform_tag files) missing
  end.

(** [process], lines 19-152 *)
Definition process (package_name : string)
    (python_versions : list (string * list string))
    (ignore_existing : bool) : M E unit :=
  min_version ← lift (min_package_version python_versions);
  releases ← call (pypi_releases ext package_name);
  start_dir ← abspath (Rel ".");
  for_each releases
    (process_release python_versions ignore_existing min_version start_dir).

End Build.

(** [main], lines 159-175 *)
Definition main (platform : string) (output_dir : path)
    (ignore_existing : bool) : M E unit :=
  output_dir ← abspath output_dir;
  packages ← call (load_packages ext);
  for_each packages (fun package =>
    platform_tag ← lift (match PLATFORM_TAGS ext !! platform with
                         | Some t => Ok t
                         | None => Raise KeyError
                         end);
    process platform_tag (before_build package) output_dir
            (test_command package) (test_requires package)
            (pin_numpy package) (package_name package)
            (python_versions package) ignore_existing).

End Process.

End Autowheel.

Export Autowheel.

(** ** The order on versions *)

Module Order.

Import LooseVersion.

(** The order the comparisons of [LooseVersion] compute wherever they are
    defined, extended to all components by placing integers before
    strings. It serves to state that a key is a least or a greatest one. *)
Definition component_le (x y : component) : bool :=
  match x, y with
  | VInt a, VInt b => a <=? b
  | VStr a, VStr b => String.leb a b
  | VInt _, VStr _ => true
  | VStr _, VInt _ => false
  end.

Fixpoint list_le (a b : list component) : bool :=
  match a, b with
  | [], _ => true
  | _ :: _, [] => false
  | x :: a', y :: b' =>
      if decide (x = y) then list_le a' b' else component_le x y
  end.

(** [a <= b] as versions. *)
Definition version_le (a b : LooseVersion.t) : bool :=
  list_le (version a) (version b).

(** Every comparison among the members of [l] is defined. *)
Definition comparable (l : list LooseVersion.t) : Prop :=
  ∀ a b, a ∈ l → b ∈ l → is_Ok (cmp a b).


End Order.

Export Order.

(** Lines 34 and 50-59 together: the answer of the version map for one
    release, [None] standing for a release that is skipped. *)
Definition required_targets (python_versions : list (string * list string))
    (release_version : string) : result (option (list string)) :=
  m ← min_package_version python_versions;
  required_pythons python_versions m release_version.

(** ** Sample inputs

    A small outside world on which the program can be run: it remembers the
    URLs that were fetched and the entries of the temporary directory. *)

Module Sample.

Definition outside_t : Type := list string * list string.

Definition fetched (s : state outside_t) : list string := fst (outside s).
Definition entries (s : state outside_t) : list string := snd (outside s).

Definition with_outside (s : state outside_t) (o : outside_t)
    : state outside_t :=
  State (cwd s) (environ s) (argv s) o.

Definition python_tags : list string :=
  ["cp27"; "cp34"; "cp35"; "cp36"; "cp37"].

Definition platform_tags : gmap string string :=
  <["macosx" := "macosx_10_6_intel"]>
  (<["linux64" := "manylinux1_x86_64"]>
  (<["windows64" := "win_amd64"]> ∅)).

Definition min_numpy : gmap (string * string) string :=
  <[("cp27", "macosx_10_6_intel") := "1.8.2"]>
  (<[("cp35", "macosx_10_6_intel") := "1.9.3"]> ∅).

(** The outside world, for a given index answer, configuration file and
    builder. *)
Definition ext (releases : list (string * list fileinfo))
    (packages : list package) (builder : action outside_t unit)
    : externals outside_t :=
  {| PYTHON_TAGS := python_tags;
     PLATFORM_TAGS := platform_tags;
     MIN_NUMPY := min_numpy;
     pypi_releases := fun _ s => (s, Ok releases);
     requests_get := fun u s =>
       (with_outside s ((fetched s ++ [u])%list, entries s), Ok "tarball");
     mkdtemp := fun s => (with_outside s (fetched s, []), Ok "/tmp/tmpbuild");
     write_file := fun name _ s =>
       (with_outside s (fetched s, name :: entries s), Ok tt);
     extractall := fun _ s =>
       (with_outside s (fetched s, (entries s ++ ["src"])%list), Ok tt);
     listdir := fun s => (s, Ok (entries s));
     cibuildwheel := builder;
     load_packages := fun s => (s, Ok packages) |}.

Definition builder_ok : action outside_t unit := fun s => (s, Ok tt).

Definition builder_exit (code : exit_code) : action outside_t unit :=
  fun s => (s, Raise (SystemExit code)).

Definition start : world outside_t :=
  World (State "/home/user" ∅ ["autowheel"; "macosx"] ([], [])) [].

(** The version map of the comment in lines 25-32. *)
Definition python_versions_0 : list (string * list string) :=
  [("0.1", ["cp27"; "cp35"]); ("0.2", ["cp27"; "cp35"; "cp36"])].

Definition wheel (name : string) : fileinfo :=
  FileInfo "bdist_wheel" name ("https://files.example/" +:+ name).

Definition source (name : string) : fileinfo :=
  FileInfo "sdist" name ("https://files.example/" +:+ name).

Definition macosx : string := "macosx_10_6_intel".

Definition python_versions_1 : list (string * list string) :=
  [("1.0", ["cp27"])].


(** A release with two source distributions and no wheel. *)
Definition two_sdists : list fileinfo :=
  [source "pkg-1.0.tar.gz"; source "PKG-1.0.tar.gz"].

(** A release whose only required wheel is there, with its source. *)
Definition all_published : list fileinfo :=
  [wheel "pkg-1.0-cp27-cp27m-macosx_10_6_intel.whl"; source "pkg-1.0.tar.gz"].

(** The same release without any source distribution. *)
Definition only_wheel : list fileinfo :=
  [wheel "pkg-1.0-cp27-cp27m-macosx_10_6_intel.whl"].

Definition package_a : package :=
  Package "a" python_versions_1 (Some "pip install cython") false
          (Some "pytest") None.

Definition package_b : package :=
  Package "b" python_versions_1 None false None None.

Definition package_c : package :=
  Package "c" [("1.0", ["cp27"; "cp35"])] None false None None.

End Sample.

(** ** Notions used by the statements *)

(** A runtime tag counts as published for a platform when it belongs to the
    recognised vocabulary and some wheel record of the release carries both
    the platform tag and the runtime tag in its file name. *)
Definition published {E} (ext : externals E) (platform_tag : string)
    (files : list fileinfo) (python_tag : string) : Prop :=
  python_tag ∈ PYTHON_TAGS ext ∧
  ∃ fi, fi ∈ files ∧ packagetype fi = "bdist_wheel" ∧
        contains platform_tag (filename fi) ∧
        contains python_tag (filename fi).

(** The source-distribution records of a release, in the order of the file
    list. *)
Definition sdist_records (files : list fileinfo) : list fileinfo :=
  filter (fun fi => packagetype fi = "sdist") files.

(** The environments the builder was entered with, oldest first. *)
Definition handed {E} (w : world E) : list (gmap string string) :=
  environ <$> builds w.

(** A computation that never enters the builder. *)
Definition keeps_builds {E A} (m : M E A) : Prop :=
  ∀ w, builds (fst (m w)) = builds w.


(** ** Notions used by the further properties *)

(** The target specifier line 132 writes to [CIBW_BUILD]. *)
Definition target_specifier (platform_tag python_tag : string) : string :=
  python_tag +:+ "-" +:+ platform_tag.

(** The value of [CIBW_BUILD] a builder invocation was entered with. *)
Definition build_specifier {E} (s : state E) : option string :=
  environ s !! "CIBW_BUILD".


(** An external collaborator that leaves the working directory alone. *)
Definition keeps_cwd {E A} (f : action E A) : Prop :=
  ∀ s, cwd (fst (f s)) = cwd s.

(** Further sample collaborators. *)

Module MoreSamples.

Import Sample.

(** A builder that fails with an exception of its own. *)
Definition builder_fail : action outside_t unit :=
  fun s => (s, Raise (OtherError "CalledProcessError")).

(** The sample world with archives that unpack into two entries. *)
Definition messy (releases : list (string * list fileinfo))
    (packages : list package) (builder : action outside_t unit)
    : externals outside_t :=
  let x := ext releases packages builder in
  {| PYTHON_TAGS := PYTHON_TAGS x;
     PLATFORM_TAGS := PLATFORM_TAGS x;
     MIN_NUMPY := MIN_NUMPY x;
     pypi_releases := pypi_releases x;
     requests_get := requests_get x;
     mkdtemp := mkdtemp x;
     write_file := write_file x;
     extractall := fun _ s =>
       (with_outside s (fetched s, (entries s ++ ["src"; "README"])%list),
        Ok tt);
     listdir := listdir x;
     cibuildwheel := cibuildwheel x;
     load_packages := load_packages x |}.


End MoreSamples.

(** * Properties *)

(** ** The comparisons of [LooseVersion] *)

Section OrderFacts.
Import LooseVersion.

Lemma string_ltb_leb (a b : string) : String.ltb a b = negb (String.leb b a).
Proof.
  unfold String.ltb, String.leb. rewrite (String.compare_antisym b a).
  by destruct (String.compare a b).
Qed.

Lemma component_le_refl x : component_le x x.
Proof.
  destruct x as [n|s]; simpl.
  - apply Is_true_true, Z.leb_le. lia.
  - change (String.le s s). reflexivity.
Qed.

Lemma component_le_total x y : component_le x y ∨ component_le y x.
Proof.
  destruct x as [a|a], y as [b|b]; simpl; auto.
  - destruct (Z.leb_spec a b); [by left|right]. apply Is_true_true, Z.leb_le. lia.
  - destruct (total String.le a b); auto.
Qed.

Lemma component_le_antisym x y : component_le x y → component_le y x → x = y.
Proof.
  destruct x as [a|a], y as [b|b]; simpl; try done.
  - intros H1%Is_true_true%Z.leb_le H2%Is_true_true%Z.leb_le. f_equal. lia.
  - intros H1 H2. f_equal. by apply (anti_symm String.le).
Qed.

Lemma component_le_trans x y z :
  component_le x y → component_le y z → component_le x z.
Proof.
  destruct x as [a|a], y as [b|b], z as [c|c]; simpl; try done.
  - intros H1%Is_true_true%Z.leb_le H2%Is_true_true%Z.leb_le.
    apply Is_true_true, Z.leb_le. lia.
  - intros H1 H2. change (String.le a c). by trans b.
Qed.

Lemma list_le_refl a : list_le a a.
Proof. induction a as [|x a IH]; simpl; [done|]. by rewrite decide_True. Qed.

Lemma list_le_total a b : list_le a b ∨ list_le b a.
Proof.
  revert b. induction a as [|x a IH]; intros [|y b]; simpl; auto.
  destruct (decide (x = y)) as [->|Hne].
  - rewrite decide_True by done. apply IH.
  - rewrite decide_False by congruence. apply component_le_total.
Qed.

Lemma list_le_trans a b c : list_le a b → list_le b c → list_le a c.
Proof.
  revert b c. induction a as [|x a IH]; intros [|y b] [|z c]; simpl; try done.
  destruct (decide (x = y)) as [->|Hxy]; destruct (decide (y = z)) as [->|Hyz].
  - apply IH.
  - done.
  - rewrite decide_False by done. done.
  - intros H1 H2. destruct (decide (x = z)) as [->|Hxz].
    + destruct Hxy. by apply component_le_antisym.
    + by apply component_le_trans with y.
Qed.

Lemma version_le_refl a : version_le a a.
Proof. apply list_le_refl. Qed.

Lemma version_le_total a b : version_le a b ∨ version_le b a.
Proof. apply list_le_total. Qed.

Lemma version_le_trans a b c : version_le a b → version_le b c → version_le a c.
Proof. apply list_le_trans. Qed.

Lemma negb_list_le a b : negb (list_le a b) → list_le b a.
Proof.
  intros H. destruct (list_le_total a b) as [H'|]; [|done].
  by destruct (list_le a b).
Qed.

(** Where the comparison of the interpreter is defined it computes the
    order above. *)
Lemma component_lt_le x y r :
  component_lt x y = Ok r → r = negb (component_le y x).
Proof.
  destruct x as [a|a], y as [b|b]; simpl; intros [=<-].
  - rewrite Z.ltb_antisym. done.
  - apply string_ltb_leb.
Qed.

Lemma list_lt_le a b r : list_lt a b = Ok r → r = negb (list_le b a).
Proof.
  revert b. induction a as [|x a IH]; intros [|y b]; simpl; try by intros [=<-].
  destruct (decide (x = y)) as [->|Hne].
  - rewrite decide_True by done. apply IH.
  - rewrite decide_False by congruence. apply component_lt_le.
Qed.

Lemma cmp_Ok a b z :
  cmp a b = Ok z →
  (z = 0 ∧ version a = version b) ∨
  (z = -1 ∧ list_le (version b) (version a) = false) ∨
  (z = 1 ∧ list_le (version a) (version b) = false).
Proof.
  unfold cmp. destruct (decide (version a = version b)) as [Heq|Hne].
  { intros [=<-]. by left. }
  destruct (list_lt (version a) (version b)) as [l|] eqn:Hl; simpl; [|done].
  apply list_lt_le in Hl. destruct l.
  { intros [=<-]. right; left. split; [done|].
    symmetry in Hl. by apply negb_true_iff in Hl. }
  unfold list_gt.
  destruct (list_lt (version b) (version a)) as [g|] eqn:Hg; simpl; [|done].
  apply list_lt_le in Hg. destruct g; [|done].
  intros [=<-]. right; right. split; [done|].
  symmetry in Hg. by apply negb_true_iff in Hg.
Qed.

Lemma cmp_is_Ok a b : is_Ok (cmp a b) → ∃ z, cmp a b = Ok z.
Proof. destruct (cmp a b); [eauto|done]. Qed.


Lemma lt_defined a b :
  is_Ok (cmp a b) → lt a b = Ok (negb (version_le b a)).
Proof.
  intros [z Hz]%cmp_is_Ok. unfold lt, version_le. rewrite Hz. simpl.
  apply cmp_Ok in Hz as [[-> Heq]|[[-> H]|[-> H]]]; f_equal; simpl.
  - rewrite Heq. symmetry. apply negb_false_iff, Is_true_true, list_le_refl.
  - by rewrite H.
  - symmetry. apply negb_false_iff, Is_true_true, negb_list_le. by rewrite H.
Qed.


End OrderFacts.

(** ** [min], [max] and the comprehension on comparable versions *)

Section ResolverFacts.
Import LooseVersion.


Lemma comparable_weaken l l' : l' ⊆ l → comparable l → comparable l'.
Proof. intros Hsub Hc a b Ha Hb. apply Hc; by apply Hsub. Qed.


Lemma extremum_from_lt l : ∀ cur,
  comparable (cur :: l) →
  ∃ m, extremum_from lt cur l = Ok m ∧ m ∈ cur :: l ∧
       ∀ x, x ∈ cur :: l → version_le m x.
Proof.
  induction l as [|x l IH]; intros cur Hc; simpl.
  { exists cur. split_and!; [done|set_solver|].
    intros y ->%list_elem_of_singleton. apply version_le_refl. }
  rewrite lt_defined by (apply Hc; set_solver). simpl.
  set (cur' := if negb (version_le cur x) then x else cur).
  assert (Hcur' : cur' ∈ [x; cur]) by (subst cur'; case_match; set_solver).
  destruct (IH cur') as (m & Hm & Hin & Hmin).
  { eapply comparable_weaken; [|exact Hc]. set_solver. }
  assert (Hle : version_le cur' cur ∧ version_le cur' x).
  { subst cur'. destruct (version_le cur x) eqn:Hx; simpl.
    - split; [apply version_le_refl|]. by apply Is_true_true.
    - split; [|apply version_le_refl].
      apply negb_list_le. unfold version_le in Hx. by rewrite Hx. }
  exists m. split_and!; [done|set_solver|].
  intros y Hy. assert (Hm' : version_le m cur') by (apply Hmin; set_solver).
  apply elem_of_cons in Hy as [->|[->|Hy]%elem_of_cons].
  - by apply version_le_trans with cur'; [|apply Hle].
  - by apply version_le_trans with cur'; [|apply Hle].
  - apply Hmin. set_solver.
Qed.





Lemma min_package_version_spec pv :
  pv ≠ [] → comparable (package_versions pv) →
  ∃ m, min_package_version pv = Ok m ∧ m ∈ package_versions pv ∧
       ∀ k, k ∈ package_versions pv → version_le m k.
Proof.
  intros Hne Hc. unfold min_package_version.
  destruct pv as [|[k t] pv]; [done|]. simpl in *.
  by apply extremum_from_lt.
Qed.


End ResolverFacts.

Section ResolverTheorems.
Import LooseVersion.


Lemma lt_below a b : is_Ok (cmp a b) → negb (version_le b a) → lt a b = Ok true.
Proof.
  intros Hc Hlt. rewrite lt_defined by done. f_equal. by apply Is_true_true.
Qed.



End ResolverTheorems.

(** ** The version map *)

Section Floor.
Import LooseVersion.


End Floor.
Lemma comparable_check l :
  forallb (fun a => forallb (fun b => is_Ok (LooseVersion.cmp a b)) l) l = true → comparable l.
Proof.
  intros H a b Ha Hb.
  rewrite forallb_forall in H. apply list_elem_of_In, H in Ha.
  rewrite forallb_forall in Ha. apply list_elem_of_In, Ha in Hb.
  by apply Is_true_true.
Qed.

Section Skips.
Import LooseVersion.
Context {E : Type} (ext : externals E).
Variables (platform_tag : string) (before_build : option string)
  (output_dir : string) (test_command test_requires : option string)
  (pin_numpy : bool).

Abbreviation release_turn :=
  (process_release ext platform_tag before_build output_dir test_command
                   test_requires pin_numpy).

Lemma for_each_continue {A} (body : A → M E unit) x l (w : world E) :
  body x w = (w, Ok tt) → for_each (x :: l) body w = for_each l body w.
Proof. intros H. simpl. unfold mbind, M_bind. by rewrite H. Qed.

Lemma for_each_abort {A} (body : A → M E unit) x l (w w' : world E) e :
  body x w = (w', Raise e) → for_each (x :: l) body w = (w', Raise e).
Proof. intros H. simpl. unfold mbind, M_bind. by rewrite H. Qed.

Lemma process_release_out_of_range pv ignore_existing m start_dir rv files w :
  required_pythons pv m rv = Ok None →
  release_turn pv ignore_existing m start_dir (rv, files) w = (w, Ok tt).
Proof.
  intros H. unfold Autowheel.process_release. rewrite H. reflexivity.
Qed.

(** Claim C6. For a non-empty version map whose keys and the release are
    mutually comparable, [min] yields a least key [m]; a release strictly
    below [m] passes the test of line 50, its turn of the loop leaves the
    world as it was (nothing is built, nothing is raised) and the loop goes
    on with the remaining releases. *)
Theorem release_below_minimum_skipped pv ignore_existing start_dir rv files
    rest (w : world E) :
  pv ≠ [] →
  comparable (LooseVersion rv :: package_versions pv) →
  ∃ m,
    min_package_version pv = Ok m ∧
    m ∈ package_versions pv ∧
    (∀ k, k ∈ package_versions pv → version_le m k) ∧
    (negb (version_le m (LooseVersion rv)) →
     lt (LooseVersion rv) m = Ok true ∧
     release_turn pv ignore_existing m start_dir (rv, files) w = (w, Ok tt) ∧
     for_each ((rv, files) :: rest)
              (release_turn pv ignore_existing m start_dir) w =
     for_each rest (release_turn pv ignore_existing m start_dir) w).
Proof.
  intros Hne Hc.
  destruct (min_package_version_spec pv Hne) as (m & Hm & Hmin & Hleast).
  { eapply comparable_weaken; [|exact Hc]. set_solver. }
  exists m. split_and!; try done.
  intros Hlt.
  assert (Hbelow : lt (LooseVersion rv) m = Ok true).
  { apply lt_below; [|done]. apply Hc; set_solver. }
  assert (Hskip : release_turn pv ignore_existing m start_dir (rv, files) w
                  = (w, Ok tt)).
  { apply process_release_out_of_range. unfold required_pythons.
    by rewrite Hbelow. }
  split_and!; [done|done|]. by apply for_each_continue.
Qed.

End Skips.

(** Claim C3, amended. With the version map
    [{"0.1": [cp27, cp35], "0.2": [cp27, cp35, cp36]}] the releases [0.15],
    [0.2] and [0.05] all get [cp27, cp35, cp36]: as versions [0.15] and
    [0.05] (whose second component is the integer 5) lie above [0.2]. A
    release between the two keys, [0.1.5], gets [cp27, cp35], and a release
    below the least key, [0.0.5], is skipped. *)
Theorem scenario_required_targets :
  required_targets Sample.python_versions_0 "0.15"
    = Ok (Some ["cp27"; "cp35"; "cp36"]) ∧
  required_targets Sample.python_versions_0 "0.2"
    = Ok (Some ["cp27"; "cp35"; "cp36"]) ∧
  required_targets Sample.python_versions_0 "0.05"
    = Ok (Some ["cp27"; "cp35"; "cp36"]) ∧
  required_targets Sample.python_versions_0 "0.1.5"
    = Ok (Some ["cp27"; "cp35"]) ∧
  required_targets Sample.python_versions_0 "0.0.5" = Ok None.
Proof. vm_compute. done. Qed.

(** Claim C3 as written does not hold: release [0.15] does not get
    [cp27, cp35]. *)
Lemma scenario_as_written_fails :
  ¬ (required_targets Sample.python_versions_0 "0.15"
       = Ok (Some ["cp27"; "cp35"]) ∧
     required_targets Sample.python_versions_0 "0.2"
       = Ok (Some ["cp27"; "cp35"; "cp36"]) ∧
     required_targets Sample.python_versions_0 "0.05" = Ok None).
Proof. intros [H _]. vm_compute in H. discriminate H. Qed.

(** Claim C6 on the version map of the source comment and release
    [0.0.5]. *)
Lemma release_below_minimum_skipped_witness :
  ∃ m, min_package_version Sample.python_versions_0 = Ok m ∧
       LooseVersion.lt (LooseVersion "0.0.5") m = Ok true ∧
     process_release (Sample.ext [] [] Sample.builder_ok) "macosx_10_6_intel" None "/out" None None false Sample.python_versions_0 false m "/home/user" ("0.0.5", [Sample.source "pkg-0.0.5.tar.gz"]) Sample.start = (Sample.start, Ok tt).
Proof.
  destruct (release_below_minimum_skipped (Sample.ext [] [] Sample.builder_ok)
     "macosx_10_6_intel" None "/out" None None false Sample.python_versions_0
     false "/home/user" "0.0.5" [Sample.source "pkg-0.0.5.tar.gz"] [] Sample.start)
    as (m & Hm & _ & _ & Hskip).
  - done.
  - apply comparable_check. vm_compute. reflexivity.
  - exists m. split; [done|]. 
    assert (m = LooseVersion "0.1") as ->.
    { assert (H0 : min_package_version Sample.python_versions_0
                   = Ok (LooseVersion "0.1")) by (vm_compute; reflexivity).
      congruence. }
    destruct Hskip as (? & ? & ?); [vm_compute; done|]. done.
Defined.
(** ** Missing targets *)

Section Detector.
Context {E : Type} (ext : externals E).

Lemma scan_files_fst platform_tag files : ∀ acc x,
  x ∈ fst (foldl (scan_file ext platform_tag) acc files) ↔
  x ∈ fst acc ∨ published ext platform_tag files x.
Proof.
  unfold published.
  induction files as [|fi files IH]; intros [wp sd] x; simpl.
  { split; [auto|]. intros [?|(_ & fi & []%elem_of_nil & _)]; done. }
  rewrite IH. clear IH.
  assert (Hhere : x ∈ fst (scan_file ext platform_tag (wp, sd) fi) ↔
            x ∈ wp ∨ (x ∈ PYTHON_TAGS ext ∧ packagetype fi = "bdist_wheel" ∧
                      contains platform_tag (filename fi) ∧
                      contains x (filename fi))).
  { unfold scan_file.
    destruct (decide (packagetype fi = "bdist_wheel")) as [Hw|Hw].
    - destruct (contains platform_tag (filename fi)) eqn:Hp; simpl.
      + rewrite elem_of_app, list_elem_of_filter. naive_solver.
      + naive_solver.
    - destruct (decide (packagetype fi = "sdist")); simpl; naive_solver. }
  rewrite Hhere. split.
  - intros [[?|(? & ? & ? & ?)]|(? & fi' & ? & ?)]; [by left|right..].
    + split; [done|]. exists fi. split; [set_solver|done].
    + split; [done|]. exists fi'. split; [set_solver|done].
  - intros [?|(? & fi' & [->|?]%elem_of_cons & ?)].
    + by left; left.
    + left; right. naive_solver.
    + right. naive_solver.
Qed.

Lemma elem_of_wheels_pythons platform_tag files x :
  x ∈ wheels_pythons ext platform_tag files ↔ published ext platform_tag files x.
Proof.
  unfold wheels_pythons, scan_files. rewrite scan_files_fst. simpl.
  split; [intros [[]%elem_of_nil|]; done|auto].
Qed.

Lemma elem_of_sorted_difference a b x :
  x ∈ sorted_difference a b ↔ x ∈ a ∧ x ∉ b.
Proof.
  unfold sorted_difference. rewrite merge_sort_Permutation.
  rewrite elem_of_elements, elem_of_difference, !elem_of_list_to_set. done.
Qed.

Lemma sorted_difference_sorted a b :
  StronglySorted String.le (sorted_difference a b).
Proof. apply StronglySorted_merge_sort; apply _. Qed.

Lemma sorted_difference_NoDup a b : NoDup (sorted_difference a b).
Proof.
  unfold sorted_difference. rewrite merge_sort_Permutation. apply NoDup_elements.
Qed.

Lemma elem_of_missing platform_tag required files x :
  x ∈ missing ext platform_tag required files ↔
  x ∈ required ∧ ¬ published ext platform_tag files x.
Proof.
  unfold missing. rewrite elem_of_sorted_difference, elem_of_wheels_pythons.
  done.
Qed.

Lemma published_dec platform_tag files x :
  Decision (published ext platform_tag files x).
Proof.
  destruct (decide (x ∈ wheels_pythons ext platform_tag files)) as [H|H];
    [left|right]; by rewrite <- elem_of_wheels_pythons.
Defined.

Lemma missing_nil_iff platform_tag required files :
  missing ext platform_tag required files = [] ↔
  ∀ x, x ∈ required → published ext platform_tag files x.
Proof.
  split.
  - intros Hnil x Hx.
    destruct (published_dec platform_tag files x) as [|Hnot]; [done|].
    assert (x ∈ missing ext platform_tag required files)
      by by apply elem_of_missing.
    rewrite Hnil in *. by apply elem_of_nil in H.
  - intros Hall.
    destruct (missing ext platform_tag required files) as [|x l] eqn:Hm; [done|].
    assert (Hx : x ∈ missing ext platform_tag required files)
      by (rewrite Hm; set_solver).
    apply elem_of_missing in Hx as [Hx Hnot]. destruct Hnot. by apply Hall.
Qed.

(** Claim C5. [missing] is sorted in ascending order and free of
    duplicates, its members are exactly the required tags that are not
    published for the platform, and it is empty exactly when every required
    tag is published for the platform. *)
Theorem missing_sorted_difference platform_tag required files :
  StronglySorted String.le (missing ext platform_tag required files) ∧
  NoDup (missing ext platform_tag required files) ∧
  (∀ x, x ∈ missing ext platform_tag required files ↔
        x ∈ required ∧ ¬ published ext platform_tag files x) ∧
  (missing ext platform_tag required files = [] ↔
   ∀ x, x ∈ required → published ext platform_tag files x).
Proof.
  split_and!.
  - apply sorted_difference_sorted.
  - apply sorted_difference_NoDup.
  - apply elem_of_missing.
  - apply missing_nil_iff.
Qed.

End Detector.

Example missing_scenario :
  missing (Sample.ext [] [] Sample.builder_ok) "macosx" ["cp27"; "cp35"]
          [Sample.wheel "pkg-1.0-cp27-cp27m-macosx.whl"] = ["cp35"].
Proof. vm_compute. reflexivity. Qed.
(** ** One release *)

Section Release.
Context {E : Type} (ext : externals E).
Variables (platform_tag : string) (before_build : option string)
  (output_dir : string) (test_command test_requires : option string)
  (pin_numpy : bool).

Abbreviation process_release' :=
  (process_release ext platform_tag before_build output_dir test_command
                   test_requires pin_numpy).
Abbreviation build_release' :=
  (build_release ext platform_tag before_build output_dir test_command
                 test_requires pin_numpy).
Abbreviation build_body' :=
  (build_body ext platform_tag before_build output_dir test_command
              test_requires pin_numpy).

(** The two ways out of [process_release] once the version map has
    answered. *)
Lemma process_release_present pv ignore_existing m start_dir rv files req w :
  required_pythons pv m rv = Ok (Some req) →
  missing ext platform_tag req files = [] →
  ignore_existing = false →
  process_release' pv ignore_existing m start_dir (rv, files) w = (w, Ok tt).
Proof.
  intros Hreq Hmiss ->. unfold process_release. rewrite Hreq.
  unfold mbind, M_bind, lift. rewrite Hmiss. reflexivity.
Qed.

Lemma process_release_attempt pv ignore_existing m start_dir rv files req w :
  required_pythons pv m rv = Ok (Some req) →
  missing ext platform_tag req files ≠ [] ∨ ignore_existing = true →
  process_release' pv ignore_existing m start_dir (rv, files) w =
  build_release' start_dir (sdist ext platform_tag files)
                 (missing ext platform_tag req files) w.
Proof.
  intros Hreq Hatt. unfold process_release. rewrite Hreq.
  unfold mbind, M_bind, lift.
  destruct Hatt as [Hne| ->].
  - rewrite bool_decide_false by done. reflexivity.
  - by rewrite andb_false_r.
Qed.

Lemma build_release_entered start_dir sd ms w s1 tmpdir :
  mkdtemp ext (proc w) = (s1, Ok tmpdir) →
  build_release' start_dir sd ms w =
  try_finally (build_body' tmpdir sd ms) (chdir (Abs start_dir))
              (World s1 (builds w)).
Proof.
  intros H. unfold build_release, mbind, M_bind, call. by rewrite H.
Qed.

Lemma try_finally_chdir {A} (body : M E A) d w :
  cwd (proc (fst (try_finally body (chdir (Abs d)) w))) = d ∧
  snd (try_finally body (chdir (Abs d)) w) = snd (body w) ∧
  builds (fst (try_finally body (chdir (Abs d)) w)) = builds (fst (body w)).
Proof. unfold try_finally. by destruct (body w) as [w1 r]. Qed.

(** Claim C9. When every required tag of a release is published for the
    platform and the force flag is unset, the turn of the loop for that
    release leaves the world as it was and raises nothing, whatever the file
    list says about source distributions, and the loop goes on with the
    remaining releases. *)
Theorem covered_release_skipped pv m start_dir rv files req rest w :
  required_pythons pv m rv = Ok (Some req) →
  (∀ x, x ∈ req → published ext platform_tag files x) →
  process_release' pv false m start_dir (rv, files) w = (w, Ok tt) ∧
  for_each ((rv, files) :: rest) (process_release' pv false m start_dir) w =
  for_each rest (process_release' pv false m start_dir) w.
Proof.
  intros Hreq Hcov.
  assert (H : process_release' pv false m start_dir (rv, files) w = (w, Ok tt)).
  { eapply process_release_present; [done| |done]. by apply missing_nil_iff. }
  split; [done|]. by apply for_each_continue.
Qed.

(** Claim C8. For a release that is built (something is missing or the
    force flag is set) and whose temporary directory was created, the
    working directory after the turn of the loop is [start_dir], whether
    the body of the [try] returned or raised: the outcome of the turn is the
    outcome of that body. [start_dir] is what [os.path.abspath('.')]
    returned before the loop, the working directory of that moment. *)
Theorem working_directory_restored pv ignore_existing m start_dir rv files req
    w s1 tmpdir :
  required_pythons pv m rv = Ok (Some req) →
  missing ext platform_tag req files ≠ [] ∨ ignore_existing = true →
  mkdtemp ext (proc w) = (s1, Ok tmpdir) →
  cwd (proc (fst (process_release' pv ignore_existing m start_dir
                                   (rv, files) w))) = start_dir ∧
  snd (process_release' pv ignore_existing m start_dir (rv, files) w) =
  snd (build_body' tmpdir (sdist ext platform_tag files)
                   (missing ext platform_tag req files)
                   (World s1 (builds w))) ∧
  abspath (Rel ".") w = (w, Ok (cwd (proc w))).
Proof.
  intros Hreq Hatt Hmk.
  rewrite (process_release_attempt _ _ _ _ _ _ _ _ Hreq Hatt).
  rewrite (build_release_entered _ _ _ _ _ _ Hmk).
  split_and!; [apply try_finally_chdir..|reflexivity].
Qed.

Lemma sdist_last_aux files : ∀ acc,
  snd (foldl (scan_file ext platform_tag) acc files) =
  match last (sdist_records files) with
  | Some fi => Some fi
  | None => snd acc
  end.
Proof.
  unfold sdist_records.
  induction files as [|fi files IH]; intros [wp sd]; simpl; [done|].
  rewrite IH. rewrite filter_cons. unfold scan_file.
  destruct (decide (packagetype fi = "bdist_wheel")) as [Hw|Hw].
  - rewrite decide_False by congruence.
    by destruct (contains platform_tag (filename fi)).
  - destruct (decide (packagetype fi = "sdist")) as [Hs|Hs]; simpl; [|done].
    rewrite last_cons. by destruct (last _).
Qed.

Lemma sdist_is_last files :
  sdist ext platform_tag files = last (sdist_records files).
Proof.
  unfold sdist, scan_files. rewrite sdist_last_aux. simpl.
  by destruct (last _).
Qed.

(** Claim C1, amended. No count of source distributions is made: the
    record kept is the last source-distribution record of the file list.
    With no such record, a release that is built (something is missing or
    the force flag is set, temporary directory created) raises [TypeError]
    at the first use of the record, before anything is fetched or built and
    with the working directory restored, and the loop over the releases
    stops with that exception. *)
Theorem sdist_choice pv ignore_existing m start_dir rv files req rest w s1
    tmpdir :
  sdist ext platform_tag files = last (sdist_records files) ∧
  (required_pythons pv m rv = Ok (Some req) →
   missing ext platform_tag req files ≠ [] ∨ ignore_existing = true →
   mkdtemp ext (proc w) = (s1, Ok tmpdir) →
   sdist_records files = [] →
   process_release' pv ignore_existing m start_dir (rv, files) w =
     (World (State start_dir (environ s1) (argv s1) (outside s1)) (builds w),
      Raise TypeError) ∧
   for_each ((rv, files) :: rest)
            (process_release' pv ignore_existing m start_dir) w =
     (World (State start_dir (environ s1) (argv s1) (outside s1)) (builds w),
      Raise TypeError)).
Proof.
  split; [apply sdist_is_last|].
  intros Hreq Hatt Hmk Hnone.
  assert (H : process_release' pv ignore_existing m start_dir (rv, files) w =
     (World (State start_dir (environ s1) (argv s1) (outside s1)) (builds w),
      Raise TypeError)).
  { rewrite (process_release_attempt _ _ _ _ _ _ _ _ Hreq Hatt).
    rewrite (build_release_entered _ _ _ _ _ _ Hmk).
    rewrite sdist_is_last, Hnone. reflexivity. }
  split; [done|]. by apply for_each_abort.
Qed.

End Release.

(** ** The builder *)

Section Builds.
Context {E : Type} (ext : externals E).
Variables (platform_tag : string) (before_build : option string)
  (output_dir : string) (test_command test_requires : option string)
  (pin_numpy : bool).

Lemma keeps_bind {A B} (m : M E A) (f : A → M E B) :
  keeps_builds m → (∀ a, keeps_builds (f a)) → keeps_builds (m ≫= f).
Proof.
  intros Hm Hf w. unfold mbind, M_bind. specialize (Hm w).
  destruct (m w) as [w1 [a|e]]; simpl in *; [|done].
  by rewrite Hf.
Qed.

Lemma keeps_ret {A} (a : A) : keeps_builds (mret a : M E A).
Proof. done. Qed.
Lemma keeps_raise {A} e : keeps_builds (raise e : M E A).
Proof. done. Qed.
Lemma keeps_lift {A} (r : result A) : keeps_builds (lift r : M E A).
Proof. done. Qed.
Lemma keeps_call {A} (f : action E A) : keeps_builds (call f).
Proof. intros w. unfold call. by destruct (f (proc w)). Qed.
Lemma keeps_chdir p : keeps_builds (chdir p : M E unit).
Proof. done. Qed.
Lemma keeps_setenv k v : keeps_builds (setenv k v : M E unit).
Proof. done. Qed.
Lemma keeps_set_argv a : keeps_builds (set_argv a : M E unit).
Proof. done. Qed.
Lemma keeps_sdist_field sd f : keeps_builds (sdist_field sd f : M E string).
Proof. by destruct sd. Qed.
Lemma keeps_try_finally {A} (body : M E A) fin :
  keeps_builds body → keeps_builds fin → keeps_builds (try_finally body fin).
Proof.
  intros Hb Hf w. unfold try_finally. specialize (Hb w).
  destruct (body w) as [w1 r]. specialize (Hf w1).
  destruct (fin w1) as [w2 [[]|e]]; simpl in *; congruence.
Qed.

Local Ltac keeps :=
  repeat first
    [ apply keeps_bind; [|intros]
    | apply keeps_ret | apply keeps_raise | apply keeps_lift
    | apply keeps_call | apply keeps_chdir | apply keeps_setenv
    | apply keeps_set_argv | apply keeps_sdist_field
    | case_match ].

Lemma keeps_configure_release :
  keeps_builds (configure_release (E:=E) platform_tag output_dir test_command
                                  test_requires).
Proof. unfold configure_release. keeps. Qed.

Lemma keeps_build_body_nil tmpdir sd :
  keeps_builds (build_body ext platform_tag before_build output_dir
                           test_command test_requires pin_numpy tmpdir sd []).
Proof.
  unfold build_body. keeps; try apply keeps_configure_release.
Qed.

(** Claim C2, what the code does. With the force flag set and every
    required tag of the release published for the platform, the turn of the
    loop enters the builder not once: the record of builder invocations is
    unchanged. *)
Theorem forced_rebuild_builds_nothing pv m start_dir rv files req w :
  required_pythons pv m rv = Ok (Some req) →
  (∀ x, x ∈ req → published ext platform_tag files x) →
  builds (fst (process_release ext platform_tag before_build output_dir
                 test_command test_requires pin_numpy pv true m start_dir
                 (rv, files) w)) = builds w.
Proof.
  intros Hreq Hcov. apply missing_nil_iff in Hcov.
  rewrite (process_release_attempt ext _ _ _ _ _ _ _ _ _ _ _ _ _ _ Hreq)
    by by right.
  rewrite Hcov. unfold build_release.
  apply keeps_bind; [apply keeps_call|intros tmpdir].
  apply keeps_try_finally; [apply keeps_build_body_nil|apply keeps_chdir].
Qed.

Lemma code_ne_0_true c : c ≠ CodeInt 0 → code_ne_0 c = true.
Proof. destruct c as [|[]|]; simpl; congruence. Qed.

(** Claim C10. When the builder, entered for target [tag], raises
    [SystemExit] with code [c]: for [c = 0] the loop over the missing
    targets goes on with the remaining targets from the state the builder
    left; for any other code the loop stops there with the same
    [SystemExit]. *)
Theorem system_exit_handling tag rest w w1 s2 c :
  configure_target ext platform_tag before_build pin_numpy tag w = (w1, Ok tt) →
  cibuildwheel ext (proc w1) = (s2, Raise (SystemExit c)) →
  (c = CodeInt 0 →
   build_missing ext platform_tag before_build pin_numpy (tag :: rest) w =
   build_missing ext platform_tag before_build pin_numpy rest
                 (World s2 (builds w1 ++ [proc w1]))) ∧
  (c ≠ CodeInt 0 →
   build_missing ext platform_tag before_build pin_numpy (tag :: rest) w =
   (World s2 (builds w1 ++ [proc w1]), Raise (SystemExit c))).
Proof.
  intros Hconf Hexit.
  assert (Hrun : run_cibuildwheel ext w1 =
                 (World s2 (builds w1 ++ [proc w1]), Raise (SystemExit c))).
  { unfold run_cibuildwheel. by rewrite Hexit. }
  split; intros Hc; unfold build_missing; simpl;
    unfold mbind, M_bind; rewrite Hconf;
    unfold build_target, except_SystemExit; rewrite Hrun.
  - subst c. reflexivity.
  - by rewrite code_ne_0_true.
Qed.

End Builds.

(** ** The environment handed to the builder *)

Section Environment.
Context {E : Type} (ext : externals E).
Variables (platform_tag : string) (before_build : option string)
  (output_dir : string) (test_command test_requires : option string)
  (pin_numpy : bool).



End Environment.

(** ** Runs on the sample world *)

Section SampleRuns.
Import Sample.


(** Claim C9 on a release without any source distribution. *)
Lemma covered_release_skipped_witness :
  sdist_records only_wheel = [] ∧
  process_release (ext [] [] builder_ok) macosx None "/out" None None false
                  python_versions_1 false (LooseVersion "1.0") "/home/user"
                  ("1.0", only_wheel) start = (start, Ok tt).
Proof.
  split; [reflexivity|].
  refine (proj1 (covered_release_skipped (ext [] [] builder_ok) macosx None
                   "/out" None None false python_versions_1
                   (LooseVersion "1.0") "/home/user" "1.0" only_wheel
                   ["cp27"] [] start _ _)).
  - vm_compute. reflexivity.
  - apply missing_nil_iff. vm_compute. reflexivity.
Defined.

(** Claim C8 on a release whose build fails. *)
Lemma working_directory_restored_witness :
  snd (process_release (ext [] [] (builder_exit (CodeInt 1))) macosx None
         "/out" None None false python_versions_1 false (LooseVersion "1.0")
         "/home/user" ("1.0", two_sdists) start)
    = Raise (SystemExit (CodeInt 1)) ∧
  cwd (proc (fst (process_release (ext [] [] (builder_exit (CodeInt 1)))
                    macosx None "/out" None None false python_versions_1
                    false (LooseVersion "1.0") "/home/user"
                    ("1.0", two_sdists) start))) = "/home/user".
Proof.
  split; [vm_compute; reflexivity|].
  refine (proj1 (working_directory_restored (ext [] [] (builder_exit (CodeInt 1)))
                   macosx None "/out" None None false python_versions_1 false
                   (LooseVersion "1.0") "/home/user" "1.0" two_sdists
                   ["cp27"] start (with_outside (proc start) ([], []))
                   "/tmp/tmpbuild" _ _ _)).
  - vm_compute. reflexivity.
  - left. vm_compute. discriminate.
  - reflexivity.
Defined.

(** Claim C1, amended, on a release with two source distributions and on
    a release with none. *)
Lemma sdist_choice_witness :
  sdist (ext [] [] builder_ok) macosx two_sdists
    = Some (source "PKG-1.0.tar.gz") ∧
  process_release (ext [] [] builder_ok) macosx None "/out" None None false
                  python_versions_1 false (LooseVersion "1.0") "/home/user"
                  ("1.0", []) start
    = (World (State "/home/user" ∅ ["autowheel"; "macosx"] ([], [])) [],
       Raise TypeError).
Proof.
  pose proof (sdist_choice (ext [] [] builder_ok) macosx None "/out" None None
                false python_versions_1 false (LooseVersion "1.0")
                "/home/user" "1.0" two_sdists ["cp27"] [] start
                (with_outside (proc start) ([], [])) "/tmp/tmpbuild") as [H1 _].
  pose proof (sdist_choice (ext [] [] builder_ok) macosx None "/out" None None
                false python_versions_1 false (LooseVersion "1.0")
                "/home/user" "1.0" [] ["cp27"] [] start
                (with_outside (proc start) ([], [])) "/tmp/tmpbuild") as [_ H2].
  split.
  - rewrite H1. reflexivity.
  - apply H2.
    + vm_compute. reflexivity.
    + left. vm_compute. discriminate.
    + reflexivity.
    + reflexivity.
Defined.

(** Claim C2 on a release whose only required wheel is published. *)
Lemma forced_rebuild_builds_nothing_witness :
  builds (fst (process_release (ext [] [] builder_ok) macosx None "/out" None
                 None false python_versions_1 true (LooseVersion "1.0")
                 "/home/user" ("1.0", all_published) start)) = [].
Proof.
  refine (forced_rebuild_builds_nothing (ext [] [] builder_ok) macosx None
            "/out" None None false python_versions_1 (LooseVersion "1.0")
            "/home/user" "1.0" all_published ["cp27"] start _ _).
  - vm_compute. reflexivity.
  - apply missing_nil_iff. vm_compute. reflexivity.
Defined.

(** Claim C10 with a builder that exits with code 0, and with one that
    exits with code 1. *)
Lemma system_exit_handling_witness :
  build_missing (ext [] [] (builder_exit (CodeInt 0))) macosx None false
                ["cp27"; "cp35"] start =
  build_missing (ext [] [] (builder_exit (CodeInt 0))) macosx None false
                ["cp35"]
                (World (proc (fst (setenv "CIBW_BUILD" "cp27-macosx_10_6_intel"
                                          start)))
                       [proc (fst (setenv "CIBW_BUILD"
                                          "cp27-macosx_10_6_intel" start))]) ∧
  build_missing (ext [] [] (builder_exit (CodeInt 1))) macosx None false
                ["cp27"; "cp35"] start =
  (World (proc (fst (setenv "CIBW_BUILD" "cp27-macosx_10_6_intel" start)))
         [proc (fst (setenv "CIBW_BUILD" "cp27-macosx_10_6_intel" start))],
   Raise (SystemExit (CodeInt 1))).
Proof.
  split.
  - refine (proj1 (system_exit_handling (ext [] [] (builder_exit (CodeInt 0)))
                     macosx None false "cp27" ["cp35"] start
                     (fst (setenv "CIBW_BUILD" "cp27-macosx_10_6_intel" start))
                     _ (CodeInt 0) _ _) _); reflexivity.
  - refine (proj2 (system_exit_handling (ext [] [] (builder_exit (CodeInt 1)))
                     macosx None false "cp27" ["cp35"] start
                     (fst (setenv "CIBW_BUILD" "cp27-macosx_10_6_intel" start))
                     _ (CodeInt 1) _ _) _); [reflexivity|reflexivity|discriminate].
Defined.

(** Claim C1 as written does not hold: a release with two source
    distributions is processed without any error, the second record being
    the one fetched. *)
Lemma two_sdists_not_rejected :
  List.length (sdist_records two_sdists) = 2%nat ∧
  snd (process (ext [("1.0", two_sdists)] [] builder_ok) macosx None "/out"
               None None false "pkg" python_versions_1 false start) = Ok tt ∧
  fetched (proc (fst (process (ext [("1.0", two_sdists)] [] builder_ok) macosx
                        None "/out" None None false "pkg" python_versions_1
                        false start)))
    = ["https://files.example/PKG-1.0.tar.gz"].
Proof. vm_compute. done. Qed.


(** A forced run on a fully published release fetches the source and
    enters the builder not once. *)
Example forced_run_fetches_and_builds_nothing :
  let run := process (ext [("1.0", all_published)] [] builder_ok) macosx None
                     "/out" None None false "pkg" python_versions_1 true start
  in
  snd run = Ok tt ∧
  fetched (proc (fst run)) = ["https://files.example/pkg-1.0.tar.gz"] ∧
  handed (fst run) = [].
Proof. vm_compute. done. Qed.

Example exit_zero_run_continues :
  let run := main (ext [("1.0", [source "pkg-1.0.tar.gz"])] [package_c]
                       (builder_exit (CodeInt 0)))
                  "macosx" (Abs "/out") false start in
  snd run = Ok tt ∧
  (.!! "CIBW_BUILD") <$> handed (fst run)
    = [Some "cp27-macosx_10_6_intel"; Some "cp35-macosx_10_6_intel"].
Proof. vm_compute. done. Qed.

Example exit_nonzero_run_aborts :
  let run := main (ext [("1.0", [source "pkg-1.0.tar.gz"]);
                        ("1.1", [source "pkg-1.1.tar.gz"])] [package_c; package_b]
                       (builder_exit (CodeInt 1)))
                  "macosx" (Abs "/out") false start in
  snd run = Raise (SystemExit (CodeInt 1)) ∧
  (.!! "CIBW_BUILD") <$> handed (fst run) = [Some "cp27-macosx_10_6_intel"] ∧
  cwd (proc (fst run)) = "/home/user".
Proof. vm_compute. done. Qed.

Example exit_none_is_raised_again :
  let run := main (ext [("1.0", [source "pkg-1.0.tar.gz"])] [package_c]
                       (builder_exit CodeNone))
                  "macosx" (Abs "/out") false start in
  snd run = Raise (SystemExit CodeNone).
Proof. vm_compute. done. Qed.

End SampleRuns.

(** ** Further facts about versions *)

Section VersionFacts.
Import LooseVersion.



(** A letter against a number at the same position cannot be compared. *)
Example mixed_components_raise :
  lt (LooseVersion "1.0a") (LooseVersion "1.0.1") = Raise TypeError.
Proof. reflexivity. Qed.

End VersionFacts.
Example parse_0_15 : LooseVersion.parse "0.15" = [VInt 0; VInt 15].
Proof. reflexivity. Qed.
Example parse_0_05 : LooseVersion.parse "0.05" = [VInt 0; VInt 5].
Proof. reflexivity. Qed.
Example parse_rc : LooseVersion.parse "1.0-rc1" =
  [VInt 1; VInt 0; VStr "-"; VStr "rc"; VInt 1].
Proof. reflexivity. Qed.
Example parse_dev : LooseVersion.parse "1.5.2.dev0+gABC" =
  [VInt 1; VInt 5; VInt 2; VStr "dev"; VInt 0; VStr "+"; VStr "g"; VStr "ABC"].
Proof. vm_compute. reflexivity. Qed.

(** * Further properties *)

(** ** The loop over the missing targets *)

Section Loop.
Context {E : Type} (ext : externals E).
Variables (platform_tag : string) (before_build : option string)
  (output_dir : string) (test_command test_requires : option string)
  (pin_numpy : bool).

Abbreviation configure_target' :=
  (configure_target ext platform_tag before_build pin_numpy).
Abbreviation build_missing' :=
  (build_missing ext platform_tag before_build pin_numpy).

Lemma configure_target_keeps tag : keeps_builds (configure_target' tag).
Proof.
  intros w. unfold configure_target, mbind, M_bind, setenv, lift. simpl.
  destruct pin_numpy; [destruct (MIN_NUMPY ext !! _)|
                       destruct (truthy before_build)]; done.
Qed.

Lemma configure_target_specifier tag w w1 :
  configure_target' tag w = (w1, Ok tt) →
  build_specifier (proc w1) = Some (target_specifier platform_tag tag).
Proof.
  unfold configure_target, build_specifier, target_specifier,
    mbind, M_bind, setenv, lift. simpl.
  destruct pin_numpy; [destruct (MIN_NUMPY ext !! _)|
                       destruct (truthy before_build)]; simpl;
    intros [= <-]; simpl; by simplify_map_eq.
Qed.

(** One turn of the loop of line 130, by cases on what happens. *)
Lemma build_missing_cons tag rest w :
  build_missing' (tag :: rest) w =
  match configure_target' tag w with
  | (w1, Ok _) =>
      match cibuildwheel ext (proc w1) with
      | (s2, Ok _) =>
          build_missing' rest (World s2 (builds w1 ++ [proc w1]))
      | (s2, Raise (SystemExit c)) =>
          if code_ne_0 c
          then (World s2 (builds w1 ++ [proc w1]), Raise (SystemExit c))
          else build_missing' rest (World s2 (builds w1 ++ [proc w1]))
      | (s2, Raise e) => (World s2 (builds w1 ++ [proc w1]), Raise e)
      end
  | (w1, Raise e) => (w1, Raise e)
  end.
Proof.
  unfold build_missing. simpl. unfold mbind, M_bind.
  destruct (configure_target' tag w) as [w1 [[]|e]]; [|done].
  unfold build_target, except_SystemExit, run_cibuildwheel.
  destruct (cibuildwheel ext (proc w1)) as [s2 [[]|e]]; [done|].
  destruct e; try done. by destruct (code_ne_0 code).
Qed.

(** The builder is entered at most once per missing target, in the order
    of the list and each time with the specifier of its target; when the
    loop returns, it was entered for every target. *)
Lemma build_missing_emits ms : ∀ w,
  ∃ new,
    builds (fst (build_missing' ms w)) = (builds w ++ new)%list ∧
    build_specifier <$> new `prefix_of`
      (fun tag => Some (target_specifier platform_tag tag)) <$> ms ∧
    (snd (build_missing' ms w) = Ok tt → List.length new = List.length ms).
Proof.
  induction ms as [|tag rest IH]; intros w.
  { exists []. split_and!; [by rewrite app_nil_r|done|done]. }
  rewrite build_missing_cons.
  pose proof (configure_target_keeps tag w) as Hk.
  pose proof (configure_target_specifier tag w) as Hs.
  destruct (configure_target' tag w) as [w1 [[]|e]]; simpl in Hk.
  2:{ exists []. split_and!; [by rewrite app_nil_r|apply prefix_nil|done]. }
  specialize (Hs w1 eq_refl).
  assert (Hstop : ∀ s2 e,
    ∃ new, builds (World s2 (builds w1 ++ [proc w1]), @Raise unit e).1
             = (builds w ++ new)%list ∧
      build_specifier <$> new `prefix_of`
        (fun tag => Some (target_specifier platform_tag tag)) <$> tag :: rest ∧
      ((World s2 (builds w1 ++ [proc w1]), @Raise unit e).2 = Ok tt →
       List.length new = List.length (tag :: rest))).
  { intros s2 e. exists [proc w1]. split_and!.
    - simpl. by rewrite Hk.
    - rewrite !fmap_cons, Hs. apply prefix_cons, prefix_nil.
    - done. }
  assert (Hgo : ∀ s2,
    ∃ new, builds (build_missing' rest (World s2 (builds w1 ++ [proc w1]))).1
             = (builds w ++ new)%list ∧
      build_specifier <$> new `prefix_of`
        (fun tag => Some (target_specifier platform_tag tag)) <$> tag :: rest ∧
      ((build_missing' rest (World s2 (builds w1 ++ [proc w1]))).2 = Ok tt →
       List.length new = List.length (tag :: rest))).
  { intros s2.
    destruct (IH (World s2 (builds w1 ++ [proc w1]))) as (new & Hb & Hp & Hl).
    exists (proc w1 :: new). split_and!.
    - rewrite Hb. simpl. rewrite Hk, <- app_assoc. done.
    - rewrite !fmap_cons, Hs. by apply prefix_cons.
    - intros H. simpl. f_equal. by apply Hl. }
  destruct (cibuildwheel ext (proc w1)) as [s2 [[]|e]]; [apply Hgo|].
  destruct e; try apply Hstop.
  destruct (code_ne_0 code); [apply Hstop|apply Hgo].
Qed.

(** Property X2.
    Numeric pinning without a pinned version for the target: [KeyError]
    after [CIBW_BUILD] was written, the builder is not entered for this
    target nor for the following ones. *)
Theorem pinned_version_missing tag rest w :
  pin_numpy = true →
  MIN_NUMPY ext !! (tag, platform_tag) = None →
  build_missing' (tag :: rest) w =
    (fst (setenv "CIBW_BUILD" (target_specifier platform_tag tag) w),
     Raise KeyError).
Proof.
  intros Hpin Hnone. rewrite build_missing_cons.
  unfold configure_target, mbind, M_bind, lift. simpl.
  rewrite Hpin, Hnone. reflexivity.
Qed.

(** Property X3.
    An exception of the builder other than [SystemExit] leaves the loop as
    it is: only [SystemExit] is looked at. *)
Theorem builder_exception_propagates tag rest w w1 s2 e :
  configure_target' tag w = (w1, Ok tt) →
  cibuildwheel ext (proc w1) = (s2, Raise e) →
  (∀ c, e ≠ SystemExit c) →
  build_missing' (tag :: rest) w =
    (World s2 (builds w1 ++ [proc w1]), Raise e).
Proof.
  intros Hconf Hb Hne. rewrite build_missing_cons, Hconf, Hb.
  destruct e; try done. by destruct (Hne code).
Qed.

End Loop.

(** ** One release, one package, one run *)

Section Runs.
Context {E : Type} (ext : externals E).
Variables (platform_tag : string) (before_build : option string)
  (output_dir : string) (test_command test_requires : option string)
  (pin_numpy : bool).

Abbreviation build_body'' :=
  (build_body ext platform_tag before_build output_dir test_command
              test_requires pin_numpy).
Abbreviation build_release'' :=
  (build_release ext platform_tag before_build output_dir test_command
                 test_requires pin_numpy).
Abbreviation process_release'' :=
  (process_release ext platform_tag before_build output_dir test_command
                   test_requires pin_numpy).
Abbreviation process'' :=
  (process ext platform_tag before_build output_dir test_command
           test_requires pin_numpy).

(** What a computation adds to the record of builder invocations, related
    to its outcome by [P]. *)
Lemma bind_emits {A B} (P : list (state E) → result B → Prop)
    (m : M E A) (f : A → M E B) :
  (∀ e, P [] (Raise e)) →
  keeps_builds m →
  (∀ a w, ∃ new, builds (fst (f a w)) = (builds w ++ new)%list ∧
                 P new (snd (f a w))) →
  ∀ w, ∃ new, builds (fst ((m ≫= f) w)) = (builds w ++ new)%list ∧
              P new (snd ((m ≫= f) w)).
Proof.
  intros Hnil Hm Hf w. unfold mbind, M_bind. specialize (Hm w).
  destruct (m w) as [w1 [a|e]]; simpl in *.
  - destruct (Hf a w1) as (new & Hb & HP). exists new. by rewrite Hb, Hm.
  - exists []. by rewrite app_nil_r.
Qed.

Lemma keeps_if {A} (b : bool) (m1 m2 : M E A) :
  keeps_builds m1 → keeps_builds m2 → keeps_builds (if b then m1 else m2).
Proof. by destruct b. Qed.

Lemma build_body_emits tmpdir sd ms : ∀ w,
  ∃ new,
    builds (fst (build_body'' tmpdir sd ms w)) = (builds w ++ new)%list ∧
    (build_specifier <$> new `prefix_of`
       (fun tag => Some (target_specifier platform_tag tag)) <$> ms ∧
     (snd (build_body'' tmpdir sd ms w) = Ok tt →
      List.length new = List.length ms)).
Proof.
  unfold build_body.
  repeat (apply (bind_emits (fun new r => _ ∧ (r = Ok tt → _)));
          [intros e; split; [apply prefix_nil|done]
          |first [apply keeps_chdir|apply keeps_sdist_field|apply keeps_call
                 |apply keeps_lift|apply keeps_set_argv
                 |apply keeps_configure_release
                 |apply keeps_if; [apply keeps_raise|apply keeps_ret]]
          |intros ?]).
  apply build_missing_emits.
Qed.

(** Property X1.
    The builder invocations of one turn of the loop over the releases:
    at most one per missing target of the release, in ascending order and
    for the given platform; none for a release that is skipped; all of
    them when the turn returns. *)
Theorem release_builds_missing pv ignore_existing m start_dir rv files w :
  let ms := match required_pythons pv m rv with
            | Ok (Some req) => missing ext platform_tag req files
            | _ => []
            end in
  let turn := process_release'' pv ignore_existing m start_dir (rv, files) w in
  ∃ new,
    builds (fst turn) = (builds w ++ new)%list ∧
    build_specifier <$> new `prefix_of`
      (fun tag => Some (target_specifier platform_tag tag)) <$> ms ∧
    (snd turn = Ok tt → List.length new = List.length ms) ∧
    StronglySorted String.le ms.
Proof.
  intros ms turn. subst ms turn. unfold process_release.
  destruct (required_pythons pv m rv) as [[req|]|e]; simpl;
    try (exists []; rewrite app_nil_r; split_and!;
         [done|done|done|constructor]).
  unfold mbind, M_bind, lift.
  destruct (bool_decide (missing ext platform_tag req files = [])
            && negb ignore_existing) eqn:Hskip.
  { apply andb_true_iff in Hskip as [->%bool_decide_eq_true _].
    exists []. rewrite app_nil_r. split_and!; [done|done|done|constructor]. }
  set (ms := missing ext platform_tag req files).
  assert (Hsorted : StronglySorted String.le ms)
    by apply sorted_difference_sorted.
  unfold build_release, mbind, M_bind, call.
  destruct (mkdtemp ext (proc w)) as [s1 [tmpdir|e]]; simpl.
  2:{ exists []. rewrite app_nil_r. split_and!; [done|apply prefix_nil|done|done]. }
  destruct (try_finally_chdir (build_body'' tmpdir (sdist ext platform_tag files) ms)
              start_dir (World s1 (builds w))) as (_ & Hr & Hb).
  rewrite Hr, Hb.
  destruct (build_body_emits tmpdir (sdist ext platform_tag files) ms
              (World s1 (builds w))) as (new & Hnew & Hp & Hl).
  exists new. done.
Qed.

(** Property X5.
    [l.remove(x)] drops the first occurrence of [x] and nothing else, and
    raises [ValueError] exactly when [x] does not occur. *)
Theorem list_remove_first x l :
  (x ∉ l → list_remove x l = Raise ValueError) ∧
  (∀ l1 l2, l = (l1 ++ x :: l2)%list → x ∉ l1 →
            list_remove x l = Ok (l1 ++ l2)%list).
Proof.
  split.
  - induction l as [|y l IH]; intros Hx; simpl; [done|].
    apply not_elem_of_cons in Hx as [Hne Hx].
    rewrite decide_False by congruence. by rewrite IH.
  - intros l1. revert l. induction l1 as [|y l1 IH]; intros l l2 -> Hx; simpl.
    + by rewrite decide_True.
    + apply not_elem_of_cons in Hx as [Hne Hx].
      rewrite decide_False by congruence. by rewrite (IH _ l2 eq_refl Hx).
Qed.

(** Property X4.
    The body of the [try] once the archive was fetched, written and
    unpacked: by cases on the directory listing. *)
Theorem archive_layout tmpdir fi ms w s2 content s3 s4 s5 listed :
  requests_get ext (url fi) (proc (fst (chdir (Abs tmpdir) w)))
    = (s2, Ok content) →
  write_file ext (filename fi) content s2 = (s3, Ok tt) →
  extractall ext (filename fi) s3 = (s4, Ok tt) →
  listdir ext s4 = (s5, Ok listed) →
  build_body'' tmpdir (Some fi) ms w =
  match list_remove (filename fi) listed with
  | Raise e => (World s5 (builds w), Raise e)
  | Ok [] => (World s5 (builds w), Raise IndexError)
  | Ok [p] =>
      (set_argv ["cibuildwheel"; "."] ;;
       configure_release platform_tag output_dir test_command test_requires ;;
       build_missing ext platform_tag before_build pin_numpy ms)
        (World (State (resolve (cwd s5) (Rel p)) (environ s5) (argv s5)
                      (outside s5)) (builds w))
  | Ok (_ :: _ :: _) => (World s5 (builds w), Raise ValueError)
  end.
Proof.
  intros Hget Hwrite Hext Hlist.
  unfold build_body, mbind, M_bind, call, sdist_field. simpl in *.
  rewrite Hget. simpl. rewrite Hwrite. simpl. rewrite Hext. simpl.
  rewrite Hlist. simpl. unfold lift.
  destruct (list_remove (filename fi) listed) as [[|p [|q paths]]|e]; done.
Qed.


(** The working directory across one turn, one package and one run. *)
Lemma process_release_cwd pv ignore_existing m start_dir rel w :
  keeps_cwd (mkdtemp ext) →
  cwd (proc w) = start_dir →
  cwd (proc (fst (process_release'' pv ignore_existing m start_dir rel w)))
    = start_dir.
Proof.
  intros Hmk Hw. destruct rel as [rv files]. unfold process_release.
  unfold mbind, M_bind, lift.
  destruct (required_pythons pv m rv) as [[req|]|e]; simpl; try done.
  destruct (_ && _); [done|].
  unfold build_release, mbind, M_bind, call.
  specialize (Hmk (proc w)).
  destruct (mkdtemp ext (proc w)) as [s1 [tmpdir|e]]; simpl in *.
  - apply try_finally_chdir.
  - congruence.
Qed.

Lemma for_each_cwd {A} (body : A → M E unit) d l : ∀ w,
  (∀ x w, cwd (proc w) = d → cwd (proc (fst (body x w))) = d) →
  cwd (proc w) = d →
  cwd (proc (fst (for_each l body w))) = d.
Proof.
  induction l as [|x l IH]; intros w Hbody Hw; simpl; [done|].
  unfold mbind, M_bind. pose proof (Hbody x w Hw) as Hx.
  destruct (body x w) as [w1 [[]|e]]; simpl in *; [by apply IH|done].
Qed.

Lemma process_cwd package_name pv ignore_existing w :
  keeps_cwd (pypi_releases ext package_name) →
  keeps_cwd (mkdtemp ext) →
  cwd (proc (fst (process'' package_name pv ignore_existing w)))
    = cwd (proc w).
Proof.
  intros Hidx Hmk. unfold process, mbind, M_bind, lift, call, abspath.
  destruct (min_package_version pv) as [m|e]; [|done].
  specialize (Hidx (proc w)).
  destruct (pypi_releases ext package_name (proc w)) as [s1 [releases|e]];
    simpl in *; [|done].
  rewrite <- Hidx.
  apply for_each_cwd; [|done].
  intros rel w' Hw'. by apply process_release_cwd.
Qed.

(** Property X7.
    Whatever happens to the releases of a package, [process] ends in the
    working directory it was entered in, provided the index query and the
    creation of the temporary directory do not move it themselves. *)
Theorem process_keeps_cwd package_name pv ignore_existing w :
  keeps_cwd (pypi_releases ext package_name) →
  keeps_cwd (mkdtemp ext) →
  cwd (proc (fst (process'' package_name pv ignore_existing w)))
    = cwd (proc w).
Proof. apply process_cwd. Qed.

End Runs.

Section Main.
Context {E : Type} (ext : externals E).

(** Property X8.
    [main] ends in the working directory it was entered in, whatever the
    outcome, provided reading the configuration, the index queries and the
    creation of temporary directories do not move it themselves. *)
Theorem main_keeps_cwd platform output_dir ignore_existing w :
  keeps_cwd (load_packages ext) →
  (∀ name, keeps_cwd (pypi_releases ext name)) →
  keeps_cwd (mkdtemp ext) →
  cwd (proc (fst (main ext platform output_dir ignore_existing w)))
    = cwd (proc w).
Proof.
  intros Hload Hidx Hmk. unfold main, mbind at 1, M_bind at 1, abspath.
  unfold mbind at 1, M_bind at 1, call. specialize (Hload (proc w)).
  destruct (load_packages ext (proc w)) as [s1 [packages|e]]; simpl in *;
    [|done].
  rewrite <- Hload. apply for_each_cwd; [|done].
  intros package w' Hw'. unfold mbind, M_bind, lift.
  destruct (PLATFORM_TAGS ext !! platform); [|done].
  rewrite <- Hw'. by apply process_cwd.
Qed.

(** Property X9.
    A platform name without an entry in [PLATFORM_TAGS] is a [KeyError]
    at the first package, before anything is asked of the index; with no
    package at all it goes unnoticed. *)
Theorem unknown_platform platform output_dir ignore_existing w s1 packages :
  PLATFORM_TAGS ext !! platform = None →
  load_packages ext (proc w) = (s1, Ok packages) →
  main ext platform output_dir ignore_existing w =
    (World s1 (builds w),
     match packages with [] => Ok tt | _ :: _ => Raise KeyError end).
Proof.
  intros Hnone Hload. unfold main, mbind at 1, M_bind at 1, abspath.
  unfold mbind at 1, M_bind at 1, call. rewrite Hload.
  destruct packages as [|package packages]; simpl; [done|].
  unfold mbind, M_bind, lift. by rewrite Hnone.
Qed.

End Main.

(** ** Missing targets, again *)

Section DetectorMore.
Context {E : Type} (ext : externals E).

Lemma published_same_files platform_tag files files' x :
  (∀ fi, fi ∈ files ↔ fi ∈ files') →
  published ext platform_tag files x → published ext platform_tag files' x.
Proof.
  intros Hf (Hx & fi & Hin & H). split; [done|]. exists fi.
  split; [by apply Hf|done].
Qed.

(** Property X10.
    [missing] depends on the file records and on the required tags as
    sets: order and repetition do not matter. (The source distribution
    that is kept does depend on the order.) *)
Theorem missing_order_independent platform_tag req req' files files' :
  (∀ x, x ∈ req ↔ x ∈ req') →
  (∀ fi, fi ∈ files ↔ fi ∈ files') →
  missing ext platform_tag req files = missing ext platform_tag req' files'.
Proof.
  intros Hreq Hfiles.
  apply (StronglySorted_unique String.le);
    [apply sorted_difference_sorted..|].
  apply NoDup_Permutation; [apply sorted_difference_NoDup..|].
  intros x. rewrite !elem_of_missing, Hreq.
  split; intros [? Hn]; (split; [done|]); intros Hp; apply Hn;
    eapply published_same_files; try exact Hp; intros fi; by rewrite Hfiles.
Qed.

(** Property X11.
    A required tag outside the recognised vocabulary is never found
    published, so it is always missing and the release is never reported
    complete. *)
Theorem unrecognised_tag_missing platform_tag req files x :
  x ∈ req → x ∉ PYTHON_TAGS ext →
  x ∈ missing ext platform_tag req files ∧
  missing ext platform_tag req files ≠ [].
Proof.
  intros Hx Hv.
  assert (H : x ∈ missing ext platform_tag req files).
  { apply elem_of_missing. split; [done|]. by intros [? _]. }
  split; [done|]. intros Hnil. rewrite Hnil in H. by apply elem_of_nil in H.
Qed.

End DetectorMore.

(** ** Strings and versions, again *)

Section StringFacts.
Import LooseVersion.

Lemma append_cons c a b : String c a +:+ b = String c (a +:+ b).
Proof. reflexivity. Qed.

Lemma append_nil b : "" +:+ b = b.
Proof. reflexivity. Qed.

Lemma prefix_app a b :
  String.prefix a b = true ↔ ∃ post, b = a +:+ post.
Proof.
  revert b. induction a as [|c a IH]; intros [|d b]; simpl.
  - split; [intros _; by exists ""|done].
  - split; [intros _; by exists (String d b)|done].
  - split; [done|]. intros [post H]. by rewrite append_cons in H.
  - destruct (ascii_dec c d) as [->|Hne].
    + rewrite IH. split; intros [post H]; exists post.
      * by rewrite append_cons, H.
      * rewrite append_cons in H. by simplify_eq.
    + split; [done|]. intros [post H]. rewrite append_cons in H.
      by simplify_eq.
Qed.

(** Property X12.
    [a in b] holds exactly when [b] is [a] between two strings. *)
Theorem contains_substring a b :
  contains a b = true ↔ ∃ pre post, b = pre +:+ a +:+ post.
Proof.
  induction b as [|d b IH].
  - unfold contains. rewrite orb_false_r, prefix_app. split.
    + intros [post H]. by exists "", post.
    + intros ([|c pre] & post & H).
      * rewrite append_nil in H. by exists post.
      * by rewrite append_cons in H.
  - change (contains a (String d b))
      with (String.prefix a (String d b) || contains a b).
    rewrite orb_true_iff, IH, prefix_app. split.
    + intros [[post H]|(pre & post & ->)].
      * by exists "", post.
      * by exists (String d pre), post.
    + intros ([|c pre] & post & H).
      * left. rewrite append_nil in H. by exists post.
      * right. exists pre, post. rewrite append_cons in H. by simplify_eq.
Qed.

End StringFacts.

Section VersionMore.
Import LooseVersion.

Lemma component_lt_defined_sym x y r :
  component_lt x y = Ok r → ∃ r', component_lt y x = Ok r'.
Proof. destruct x, y; simpl; intros [=]; eauto. Qed.

Lemma list_lt_defined_sym a : ∀ b r,
  list_lt a b = Ok r → ∃ r', list_lt b a = Ok r'.
Proof.
  induction a as [|x a IH]; intros [|y b] r; simpl; eauto.
  destruct (decide (x = y)) as [->|Hne].
  - rewrite decide_True by done. apply IH.
  - rewrite decide_False by congruence. apply component_lt_defined_sym.
Qed.

(** Property X13.
    Swapping the arguments of a comparison that is defined negates its
    result. *)
Theorem cmp_swap a b z : cmp a b = Ok z → cmp b a = Ok (- z).
Proof.
  intros H. pose proof (cmp_Ok _ _ _ H) as Hz. revert H. unfold cmp.
  destruct (decide (version a = version b)) as [Heq|Hne].
  { intros [= <-]. by rewrite decide_True. }
  rewrite decide_False by congruence. unfold list_gt.
  destruct (list_lt (version a) (version b)) as [l|] eqn:Hl; simpl; [|done].
  destruct (list_lt_defined_sym _ _ _ Hl) as [g Hg]. rewrite Hg. simpl.
  pose proof (list_lt_le _ _ _ Hl) as Hl'.
  pose proof (list_lt_le _ _ _ Hg) as Hg'.
  destruct l.
  - intros [= <-]. simpl.
    assert (g = false) as ->.
    { rewrite Hg'. apply negb_false_iff, Is_true_true, negb_list_le.
      by rewrite <- Hl'. }
    done.
  - destruct g; [|done]. by intros [= <-].
Qed.



End VersionMore.

Section DottedNumbers.
Import LooseVersion.



Lemma classify_dot : classify "."%char = Dot.
Proof. reflexivity. Qed.




End DottedNumbers.

(** ** Further runs on the sample world *)

Section MoreRuns.
Import Sample MoreSamples.

(** A release with two missing targets and a builder that fails at the
    first one: one invocation, for [cp27]. *)
Example release_builds_missing_sample :
  let turn := process_release (ext [] [] builder_fail) macosx None "/out" None
                None false [("1.0", ["cp35"; "cp27"])] false
                (LooseVersion "1.0") "/home/user"
                ("1.0", [source "pkg-1.0.tar.gz"]) start in
  build_specifier <$> builds (fst turn) = [Some "cp27-macosx_10_6_intel"] ∧
  snd turn = Raise (OtherError "CalledProcessError").
Proof. vm_compute. done. Qed.

(** Property X2 on the sample world. *)
Lemma pinned_version_missing_witness :
  build_missing (ext [] [] builder_ok) macosx None true ["cp36"; "cp37"] start
  = (fst (setenv "CIBW_BUILD" "cp36-macosx_10_6_intel" start), Raise KeyError).
Proof.
  apply (pinned_version_missing (ext [] [] builder_ok) macosx None true
           "cp36" ["cp37"] start); reflexivity.
Defined.

(** Property X3 on the sample world. *)
Lemma builder_exception_propagates_witness :
  build_missing (ext [] [] builder_fail) macosx None false ["cp27"; "cp35"]
                start
  = (World (proc (fst (setenv "CIBW_BUILD" "cp27-macosx_10_6_intel" start)))
           [proc (fst (setenv "CIBW_BUILD" "cp27-macosx_10_6_intel" start))],
     Raise (OtherError "CalledProcessError")).
Proof.
  refine (builder_exception_propagates (ext [] [] builder_fail) macosx None
            false "cp27" ["cp35"] start
            (fst (setenv "CIBW_BUILD" "cp27-macosx_10_6_intel" start))
            _ (OtherError "CalledProcessError") _ _ _);
    [reflexivity|reflexivity|discriminate].
Defined.

(** Property X5 on the sample world. *)
Lemma list_remove_first_witness :
  list_remove "x" ["a"; "b"] = Raise ValueError ∧
  list_remove "b" ["a"; "b"; "c"; "b"] = Ok ["a"; "c"; "b"].
Proof.
  split.
  - apply (proj1 (list_remove_first "x" ["a"; "b"])). set_solver.
  - apply (proj2 (list_remove_first "b" ["a"; "b"; "c"; "b"]) ["a"] ["c"; "b"]);
      [reflexivity|set_solver].
Defined.

(** Property X4 on the sample world. *)
Lemma archive_layout_witness :
  snd (build_body (messy [] [] builder_ok) macosx None "/out" None None false
         "/tmp/tmpbuild" (Some (source "pkg-1.0.tar.gz")) ["cp27"] start)
  = Raise ValueError.
Proof.
  rewrite (archive_layout (messy [] [] builder_ok) macosx None "/out" None
             None false "/tmp/tmpbuild" (source "pkg-1.0.tar.gz") ["cp27"]
             start _ _ _ _ _ _ eq_refl eq_refl eq_refl eq_refl).
  reflexivity.
Defined.


(** Property X7 on the sample world. *)
Lemma process_keeps_cwd_witness :
  cwd (proc (fst (process (ext [("1.0", two_sdists)] [] builder_fail) macosx
                    None "/out" None None false "pkg" python_versions_1 false
                    start))) = "/home/user".
Proof.
  apply (process_keeps_cwd (ext [("1.0", two_sdists)] [] builder_fail) macosx
           None "/out" None None false "pkg" python_versions_1 false start);
    intros s; reflexivity.
Defined.

(** Property X8 on the sample world. *)
Lemma main_keeps_cwd_witness :
  cwd (proc (fst (main (ext [("1.0", two_sdists)] [package_a; package_b]
                          (builder_exit (CodeInt 1)))
                       "macosx" (Rel "wheels") false start))) = "/home/user".
Proof.
  apply (main_keeps_cwd (ext [("1.0", two_sdists)] [package_a; package_b]
                           (builder_exit (CodeInt 1)))
           "macosx" (Rel "wheels") false start);
    [intros s; reflexivity|intros name s; reflexivity|intros s; reflexivity].
Defined.

(** Property X9 on the sample world. *)
Lemma unknown_platform_witness :
  main (ext [("1.0", two_sdists)] [package_a] builder_ok) "solaris"
       (Abs "/out") false start = (start, Raise KeyError) ∧
  main (ext [("1.0", two_sdists)] [] builder_ok) "solaris"
       (Abs "/out") false start = (start, Ok tt).
Proof.
  split.
  - apply (unknown_platform (ext [("1.0", two_sdists)] [package_a] builder_ok)
             "solaris" (Abs "/out") false start (proc start) [package_a]);
      reflexivity.
  - apply (unknown_platform (ext [("1.0", two_sdists)] [] builder_ok)
             "solaris" (Abs "/out") false start (proc start) []);
      reflexivity.
Defined.

(** Property X10 on the sample world. *)
Lemma missing_order_independent_witness :
  missing (ext [] [] builder_ok) macosx ["cp35"; "cp27"; "cp35"]
          [source "pkg-1.0.tar.gz";
           wheel "pkg-1.0-cp27-cp27m-macosx_10_6_intel.whl"]
  = missing (ext [] [] builder_ok) macosx ["cp27"; "cp35"] all_published.
Proof.
  apply missing_order_independent.
  - intros x. rewrite !elem_of_cons. naive_solver.
  - intros fi. unfold all_published. rewrite !elem_of_cons. naive_solver.
Defined.

(** Property X11 on the sample world. *)
Lemma unrecognised_tag_missing_witness :
  "pp37" ∈ missing (ext [] [] builder_ok) macosx ["cp27"; "pp37"]
                   [wheel "pkg-1.0-pp37-pypy37_pp73-macosx_10_6_intel.whl";
                    wheel "pkg-1.0-cp27-cp27m-macosx_10_6_intel.whl"].
Proof.
  apply (unrecognised_tag_missing (ext [] [] builder_ok) macosx
           ["cp27"; "pp37"] _ "pp37").
  - set_solver.
  - change ("pp37" ∉ python_tags). unfold python_tags.
    rewrite !not_elem_of_cons. split_and!; try done. apply not_elem_of_nil.
Defined.

(** Property X13 on the sample world. *)
Lemma cmp_swap_witness :
  LooseVersion.cmp (LooseVersion "0.10") (LooseVersion "0.9") = Ok 1.
Proof.
  apply (cmp_swap (LooseVersion "0.9") (LooseVersion "0.10") (-1)).
  reflexivity.
Defined.


End MoreRuns.
